(** * SmartHomeSystem: the ATmega primary controller (atmega_sys_control.c)

    A shallow embedding of the state-synchronisation core of the firmware:
    the persisted settings in EEPROM, the packet codec ([packet_config],
    [var_config]), the button-driven editing functions ([tempr_config],
    [humid_config], [light_config], [btn_db_mod], [btn_db_val]) and the body
    of the main loop with its two serial exchanges.

    Conventions.
    - A [uint8_t] / [unsigned char] is a [Z] in [0,256); every place where C
      truncates to 8 bits is written out with [u8].
    - The EEPROM is a finite map from addresses to bytes; a cell that was
      never written reads as the erased value 0xFF.
    - The hardware is an oracle carried in the state: the outcome of each
      timed wait for a received byte (per peer) and of each timed wait for
      the transmit register, plus the log of bytes written to the transmit
      register while each peer was selected.
    - The LCD text ([str_0], [str_1], [strout]) is not modelled: the panel
      functions and [data_corruption] are embedded up to the point where
      they build that text, and the only display event kept is the call of
      [data_corruption], logged with its address.  The text can be longer
      than the 24 bytes of its buffer; what such a write hits depends on how
      the globals are laid out and is outside this model. *)

From stdpp Require Import gmap list.
From coqutil Require Import Datatypes.RecordSetters.
Import TriangleBracketNotations.
Local Open Scope Z_scope.

(** ** Bytes *)

Definition u8 (x : Z) : Z := x mod 256.

(** C truth value of an integer expression. *)
Definition nz (x : Z) : bool := negb (x =? 0).

(** ** EEPROM locations (the #defines of the source) *)

Definition TEMPR_0 : Z := 0x20.
Definition TEMPR_1 : Z := 0x21.
Definition HUMID_0 : Z := 0x22.
Definition HUMID_1 : Z := 0x23.
Definition LIGHT_0 : Z := 0x24.
Definition LIGHT_1 : Z := 0x25.
Definition PACKET0 : Z := 0x26.
Definition PACKET1 : Z := 0x27.
Definition PACKET2 : Z := 0x28.

Definition TCLCL : Z := 4.

(** ** The EEPROM of avr/eeprom.h *)

Definition eeprom_read_byte (e : gmap Z Z) (a : Z) : Z :=
  u8 (default 0xFF (e !! a)).

Definition eeprom_write_byte (a v : Z) (e : gmap Z Z) : gmap Z Z :=
  <[a := u8 v]> e.

(** [eeprom_update_byte] writes the cell only when its content differs. *)
Definition eeprom_update_byte (a v : Z) (e : gmap Z Z) : gmap Z Z :=
  if decide (eeprom_read_byte e a = u8 v) then e else eeprom_write_byte a v e.

(** ** Program state *)

(** The "global bools for integration purposes" and the two raw targets. *)
Record controls := {
  fan_on : bool;
  cooler_on : bool;
  heater_on : bool;
  ac_auto : bool;
  tempr_val : Z;
  humid_on : bool;
  humid_val : Z;
  lights : bool;
  lights_auto : bool
}.

(** The serial line behind the one-bit multiplexer.  [imp_rx] and [xbee_rx]
    give the outcome of the successive timed reads from each peer ([None]: the
    wait ran out); [udre] gives the outcome of the successive timed waits for
    the transmit register; [imp_tx] and [xbee_tx] log the bytes written to
    [UDR0] while the peer was selected. *)
Record uart := {
  imp_rx : list (option Z);
  xbee_rx : list (option Z);
  udre : list bool;
  imp_tx : list Z;
  xbee_tx : list Z
}.

Record state := {
  (* persisted medium and devices *)
  eeprom : gmap Z Z;
  line : uart;
  faults : list Z;
  (* globals *)
  current : Z;
  editing : Z;
  changed : Z;
  counter : Z;
  pos_level : Z;
  ctl : controls;
  temp_sen : Z;
  humid_sen : Z;
  (* automatic variables of main *)
  tempDataByte : Z;
  io_char : Z;
  temp_char : Z;
  humid_char : Z;
  current_loop : Z;
  addr : Z;
  local_data_0 : Z;
  local_data_1 : Z
}.

(** ** data_corruption

    Shows the message and the address for two seconds, then returns. *)
Definition data_corruption (address : Z) (st : state) : state :=
  st <| faults := faults st ++ [address] |>.

(** ** The packet codec *)

Definition tempr_set_of (byte_bools : Z) : Z :=
  if nz (Z.land byte_bools 0x02) then 0
  else if nz (Z.land byte_bools 0x04) then 1
  else if nz (Z.land byte_bools 0x08) then 2 else 3.

Definition light_set_of (byte_bools : Z) : Z :=
  if nz (Z.land byte_bools 0x40) then 0
  else if nz (Z.land byte_bools 0x20) then 2 else 1.

(** [var_config]: from the three packet bytes in EEPROM to the settings
    slots.  The operands of [/] and [%] are non-negative ([int] values read
    from bytes), so C's division is [Z.div] and [Z.modulo]. *)
Definition var_config (st : state) : state :=
  let e := eeprom st in
  let byte_bools := eeprom_read_byte e PACKET0 in
  let byte_tempr := eeprom_read_byte e PACKET1 in
  let byte_humid := eeprom_read_byte e PACKET2 in
  let tempr_MSD := u8 (Z.shiftl (byte_tempr / 10) 4) in
  let tempr_LSD := u8 (byte_tempr mod 10) in
  let tempr_BCD := Z.lor tempr_MSD tempr_LSD in
  let tempr_set := u8 (Z.shiftl (tempr_set_of byte_bools) 6) in
  let e := eeprom_update_byte TEMPR_0 tempr_BCD e in
  let e := eeprom_update_byte TEMPR_1 tempr_set e in
  let humid_MSD := u8 (Z.shiftl (byte_humid / 10) 4) in
  let humid_LSD := u8 (byte_humid mod 10) in
  let humid_BCD := Z.lor humid_MSD humid_LSD in
  let humid_set := u8 (Z.land byte_humid 0x80) in
  let e := eeprom_update_byte HUMID_0 humid_BCD e in
  let e := eeprom_update_byte HUMID_1 humid_set e in
  let light_set := u8 (Z.shiftl (light_set_of byte_bools) 6) in
  let e := eeprom_update_byte LIGHT_0 light_set e in
  st <| eeprom := e |>.

(** [packet_config]: from the settings slots to the control variables and
    the three packet bytes. *)
Definition packet_config (st : state) : state :=
  let e := eeprom st in
  let data_0 := eeprom_read_byte e TEMPR_0 in
  let data_1 := eeprom_read_byte e TEMPR_1 in
  let data_2 := eeprom_read_byte e HUMID_0 in
  let data_3 := eeprom_read_byte e HUMID_1 in
  let data_4 := eeprom_read_byte e LIGHT_0 in
  let tempr_high := Z.shiftr (Z.land data_0 0xF0) 4 in
  let tempr_low := Z.land data_0 0x0F in
  let st := if (9 <? tempr_high) || (9 <? tempr_low)
            then data_corruption TEMPR_0 st else st in
  let mode := Z.shiftr (Z.land data_1 0xC0) 6 in
  let tempr_val' := u8 (tempr_high * 10 + tempr_low) in
  let ac_auto' := mode =? 0 in
  let fan_on' := mode =? 1 in
  let heater_on' := mode =? 2 in
  let cooler_on' := mode =? 3 in
  let humid_high := Z.shiftr (Z.land data_2 0xF0) 4 in
  let humid_low := Z.land data_2 0x0F in
  let hum_e := Z.shiftr (Z.land data_3 0x80) 7 in
  let humid_val' := u8 (humid_high * 10 + humid_low) in
  let humid_on' := hum_e =? 1 in
  let light := Z.shiftr (Z.land data_4 0xC0) 6 in
  let lights' := light =? 2 in
  let lights_auto' := light =? 0 in
  let byte_bools := 0 in
  let byte_tempr := 0 in
  let byte_humid := 0 in
  let byte_bools := u8 (Z.lor byte_bools (Z.shiftl (Z.b2z lights_auto') 6)) in
  let byte_bools := u8 (Z.lor byte_bools (Z.shiftl (Z.b2z lights') 5)) in
  let byte_bools := u8 (Z.lor byte_bools (Z.shiftl (Z.b2z cooler_on') 4)) in
  let byte_bools := u8 (Z.lor byte_bools (Z.shiftl (Z.b2z heater_on') 3)) in
  let byte_bools := u8 (Z.lor byte_bools (Z.shiftl (Z.b2z fan_on') 2)) in
  let byte_bools := u8 (Z.lor byte_bools (Z.shiftl (Z.b2z ac_auto') 1)) in
  let byte_tempr := u8 (Z.lor byte_tempr (Z.land tempr_val' 0x7F)) in
  let byte_humid := u8 (Z.lor byte_humid (Z.shiftl (Z.b2z humid_on') 7)) in
  let byte_humid := u8 (Z.lor byte_humid (Z.land humid_val' 0x7F)) in
  let e := eeprom_update_byte PACKET0 byte_bools e in
  let e := eeprom_update_byte PACKET1 byte_tempr e in
  let e := eeprom_update_byte PACKET2 byte_humid e in
  st <| ctl := {| fan_on := fan_on'; cooler_on := cooler_on';
                  heater_on := heater_on'; ac_auto := ac_auto';
                  tempr_val := tempr_val'; humid_on := humid_on';
                  humid_val := humid_val'; lights := lights';
                  lights_auto := lights_auto' |} |>
     <| eeprom := e |>.

(** ** Serial I/O

    Each function selects its peer on PC0 and waits, with a bounded counter,
    for the receive or transmit flag.  A receive whose wait runs out returns
    0xFF; a transmit whose wait runs out returns without writing [UDR0]. *)

(** One timed wait for a received byte: the byte that arrived, or 0xFF when
    the counter ran out; the rest of the outcomes. *)
Definition timed_read (rx : list (option Z)) : Z * list (option Z) :=
  match rx with
  | Some b :: rx' => (u8 b, rx')
  | None :: rx' => (0xFF, rx')
  | [] => (0xFF, [])
  end.

(** One timed wait for the transmit register. *)
Definition timed_wait (u : list bool) : bool * list bool :=
  match u with
  | ready :: u' => (ready, u')
  | [] => (false, [])
  end.

Definition usart_in_imp (st : state) : Z * state :=
  let '(b, rx) := timed_read (imp_rx (line st)) in
  (b, st <| line := (line st) <| imp_rx := rx |> |>).

Definition usart_in_xbee (st : state) : Z * state :=
  let '(b, rx) := timed_read (xbee_rx (line st)) in
  (b, st <| line := (line st) <| xbee_rx := rx |> |>).

Definition usart_out_imp (ch : Z) (st : state) : state :=
  let '(ready, u) := timed_wait (udre (line st)) in
  let st := st <| line := (line st) <| udre := u |> |> in
  if ready
  then st <| line := (line st) <| imp_tx := imp_tx (line st) ++ [u8 ch] |> |>
  else st.

Definition usart_out_xbee (ch : Z) (st : state) : state :=
  let '(ready, u) := timed_wait (udre (line st)) in
  let st := st <| line := (line st) <| udre := u |> |> in
  if ready
  then st <| line := (line st) <| xbee_tx := xbee_tx (line st) ++ [u8 ch] |> |>
  else st.

(** ** Buttons

    One sample of the four button inputs.  [btn_0] and [btn_1] are read by
    [btn_db_mod], [btn_2] and [btn_3] by [btn_db_val].  The debounce loops
    spin until the button is released; a pressed button is taken to be
    released eventually, so each pressed sample yields one edge. *)
Record buttons := {
  btn_0 : bool;
  btn_1 : bool;
  btn_2 : bool;
  btn_3 : bool
}.

Definition no_press : buttons :=
  {| btn_0 := false; btn_1 := false; btn_2 := false; btn_3 := false |}.
Definition press_0 : buttons :=
  {| btn_0 := true; btn_1 := false; btn_2 := false; btn_3 := false |}.
Definition press_1 : buttons :=
  {| btn_0 := false; btn_1 := true; btn_2 := false; btn_3 := false |}.
Definition press_2 : buttons :=
  {| btn_0 := false; btn_1 := false; btn_2 := true; btn_3 := false |}.
Definition press_3 : buttons :=
  {| btn_0 := false; btn_1 := false; btn_2 := false; btn_3 := true |}.

Definition btn_db_mod (b : buttons) (st : state) : state :=
  if (editing st =? 0) && btn_0 b then
    let st := st <| current := u8 (current st + 1) |> in
    if 2 <? current st then st <| current := 0 |> else st
  else if btn_1 b then
    if current st =? 0 then
      let st := st <| editing := u8 (editing st + 1) |> in
      if 2 <? editing st then st <| editing := 0 |> else st
    else if current st =? 1 then
      let st := st <| editing := u8 (editing st + 1) |> in
      if 2 <? editing st then st <| editing := 0 |> else st
    else st <| editing := Z.b2z (negb (nz (editing st))) |>
  else st.

Definition btn_db_val (b : buttons) : Z :=
  if btn_2 b then 1 else if btn_3 b then 2 else 0.

(** ** clk *)

Definition clk (st : state) : state :=
  let st := st <| counter := u8 (counter st - 1) |> in
  if counter st =? 0 then st <| counter := TCLCL |> <| pos_level := 0 |>
  else if counter st =? TCLCL / 2 then st <| pos_level := 1 |>
  else st.

(** ** tempr_config

    The digit arithmetic of the two value branches, on the pair
    [(tempr_high, tempr_low)] of [uint8_t] locals. *)

Definition tempr_increment (d : Z * Z) : Z * Z :=
  let '(tempr_high, tempr_low) := d in
  let tempr_low := u8 (tempr_low + 1) in
  let '(tempr_high, tempr_low) :=
    if 9 <? tempr_low then (u8 (tempr_high + 1), 0) else (tempr_high, tempr_low) in
  if (tempr_high =? 9) && (0 <? tempr_low) then (6, 0) else (tempr_high, tempr_low).

Definition tempr_decrement (d : Z * Z) : Z * Z :=
  let '(tempr_high, tempr_low) := d in
  let tempr_low := u8 (tempr_low - 1) in
  let '(tempr_high, tempr_low) :=
    if 9 <? tempr_low then (u8 (tempr_high - 1), 9) else (tempr_high, tempr_low) in
  if tempr_high =? 5 then (9, 0) else (tempr_high, tempr_low).

Definition tempr_next_mode (mode : Z) : Z :=
  if mode =? 0 then 1 else if mode =? 1 then 2 else if mode =? 2 then 3 else 0.

(** Returns the new [*data_0], [*data_1] and the state ([changed]). *)
Definition tempr_config (b : buttons) (data_0 data_1 : Z) (st : state)
  : Z * Z * state :=
  let tempr_high := Z.shiftr (Z.land data_0 0xF0) 4 in
  let tempr_low := Z.land data_0 0x0F in
  let mode := Z.shiftr (Z.land data_1 0xC0) 6 in
  if nz (editing st) then
    let btn_type := btn_db_val b in
    if nz btn_type then
      let st := st <| changed := 1 |> in
      let mode := if editing st =? 1 then tempr_next_mode mode else mode in
      let '(tempr_high, tempr_low) :=
        if editing st =? 1 then (tempr_high, tempr_low)
        else if btn_type =? 1 then tempr_increment (tempr_high, tempr_low)
        else if btn_type =? 2 then tempr_decrement (tempr_high, tempr_low)
        else (tempr_high, tempr_low) in
      let data_0 := 0 in
      let data_0 := u8 (Z.lor data_0 (Z.shiftl tempr_high 4)) in
      let data_0 := u8 (Z.lor data_0 tempr_low) in
      let data_1 := 0 in
      let data_1 := u8 (Z.lor data_1 (Z.shiftl mode 6)) in
      (data_0, data_1, st)
    else (data_0, data_1, st)
  else (data_0, data_1, st).

(** ** humid_config *)

Definition humid_increment (d : Z * Z) : Z * Z :=
  let '(humid_high, humid_low) := d in
  let humid_low := u8 (humid_low + 5) in
  let '(humid_high, humid_low) :=
    if 9 <? humid_low then (u8 (humid_high + 1), 0) else (humid_high, humid_low) in
  if humid_high =? 10 then (0, humid_low) else (humid_high, humid_low).

Definition humid_decrement (d : Z * Z) : Z * Z :=
  let '(humid_high, humid_low) := d in
  let humid_low := u8 (humid_low - 5) in
  let '(humid_high, humid_low) :=
    if 9 <? humid_low then (u8 (humid_high - 1), 5) else (humid_high, humid_low) in
  if 9 <? humid_high then (9, humid_low) else (humid_high, humid_low).

Definition humid_config (b : buttons) (data_0 data_1 : Z) (st : state)
  : Z * Z * state :=
  let humid_high := Z.shiftr (Z.land data_0 0xF0) 4 in
  let humid_low := Z.land data_0 0x0F in
  let hum_e := Z.shiftr (Z.land data_1 0x80) 7 in
  if nz (editing st) then
    let btn_type := btn_db_val b in
    if nz btn_type then
      let st := st <| changed := 1 |> in
      let hum_e :=
        if editing st =? 1 then (if hum_e =? 0 then 1 else 0) else hum_e in
      let '(humid_high, humid_low) :=
        if editing st =? 1 then (humid_high, humid_low)
        else if btn_type =? 1 then humid_increment (humid_high, humid_low)
        else if btn_type =? 2 then humid_decrement (humid_high, humid_low)
        else (humid_high, humid_low) in
      let data_0 := 0 in
      let data_0 := u8 (Z.lor data_0 (Z.shiftl humid_high 4)) in
      let data_0 := u8 (Z.lor data_0 humid_low) in
      let data_1 := 0 in
      let data_1 := u8 (Z.lor data_1 (Z.shiftl hum_e 7)) in
      (data_0, data_1, st)
    else (data_0, data_1, st)
  else (data_0, data_1, st).

(** ** light_config *)

Definition light_config (b : buttons) (data_0 data_1 : Z) (st : state)
  : Z * Z * state :=
  let light := Z.shiftr (Z.land data_0 0xC0) 6 in
  if nz (editing st) && nz (btn_db_val b) then
    let st := st <| changed := 1 |> in
    let light := if light =? 0 then 1 else if light =? 1 then 2 else 0 in
    let data_0 := 0 in
    let data_0 := u8 (Z.lor data_0 (Z.shiftl light 6)) in
    (data_0, data_1, st)
  else (data_0, data_1, st).

(** ** main

    The statements of [main] are split into named parts, in source order. *)

(** [tempDataByte = usart_in_imp();] and [tempDataByte = usart_in_xbee();] *)
Definition read_imp (st : state) : state :=
  let '(b, st) := usart_in_imp st in st <| tempDataByte := b |>.

Definition read_xbee (st : state) : state :=
  let '(b, st) := usart_in_xbee st in st <| tempDataByte := b |>.

(** The status-request branch: refresh the packet and send it to the Imp. *)
Definition imp_status_reply (st : state) : state :=
  let st := packet_config st in
  let st := usart_out_imp (eeprom_read_byte (eeprom st) PACKET0) st in
  let st := usart_out_imp (eeprom_read_byte (eeprom st) PACKET1) st in
  usart_out_imp (eeprom_read_byte (eeprom st) PACKET2) st.

(** The set-command branch: store the packet, decode it, forward it. *)
Definition imp_set_command (st : state) : state :=
  let st := st <| eeprom := eeprom_update_byte PACKET0 (io_char st) (eeprom st) |> in
  let st := st <| eeprom := eeprom_update_byte PACKET1 (temp_char st) (eeprom st) |> in
  let st := st <| eeprom := eeprom_update_byte PACKET2 (humid_char st) (eeprom st) |> in
  let st := var_config st in
  let st := usart_out_xbee (io_char st) st in
  let st := usart_out_xbee (temp_char st) st in
  usart_out_xbee (humid_char st) st.

(** The exchange with the Imp: header 0xA9 0x65, then three payload bytes.
    The nested [if] blocks of the source are named from the innermost one
    outwards; each definition is the block that starts at the read it
    begins with. *)

(** [if ((temp_char & 0x80) != 0x00) ... else ...] *)
Definition imp_dispatch (st : state) : state :=
  if nz (Z.land (temp_char st) 0x80)
  then imp_status_reply st
  else imp_set_command st.

Definition imp_payload_humid (st : state) : state :=
  let st := read_imp st in
  if negb (tempDataByte st =? 0xFF)
  then imp_dispatch (st <| humid_char := tempDataByte st |>)
  else st.

Definition imp_payload_temp (st : state) : state :=
  let st := read_imp st in
  if negb (tempDataByte st =? 0xFF)
  then imp_payload_humid (st <| temp_char := tempDataByte st |>)
  else st.

Definition imp_payload_flags (st : state) : state :=
  let st := read_imp st in
  if negb (tempDataByte st =? 0xFF)
  then imp_payload_temp (st <| io_char := tempDataByte st |>)
  else st.

Definition imp_header_1 (st : state) : state :=
  let st := read_imp st in
  if tempDataByte st =? 0x65 then imp_payload_flags st else st.

Definition imp_exchange (st : state) : state :=
  let st := read_imp st in
  if tempDataByte st =? 0xA9 then imp_header_1 st else st.

(** The exchange with the Xbee: header 0xE3, then two sensor bytes; the
    blocks are named in the same way. *)

Definition xbee_ack (st : state) : state :=
  let st := st <| humid_sen := Z.land (humid_char st) 0x7F |> in
  let st := st <| temp_sen := Z.land (temp_char st) 0x7F |> in
  let st := usart_out_xbee 0xD4 st in
  let st := usart_out_xbee (io_char st) st in
  let st := usart_out_xbee (temp_char st) st in
  usart_out_xbee (humid_char st) st.

Definition xbee_payload_humid (st : state) : state :=
  let st := read_xbee st in
  if negb (tempDataByte st =? 0xFF)
  then xbee_ack (st <| humid_char := tempDataByte st |>)
  else st.

Definition xbee_payload_temp (st : state) : state :=
  let st := read_xbee st in
  if negb (tempDataByte st =? 0xFF)
  then xbee_payload_humid (st <| temp_char := tempDataByte st |>)
  else st.

Definition xbee_exchange (st : state) : state :=
  let st := read_xbee st in
  if tempDataByte st =? 0xE3 then xbee_payload_temp st else st.

(** The EEPROM defaults written when [TEMPR_0] reads as erased. *)
Definition eeprom_defaults (e : gmap Z Z) : gmap Z Z :=
  if eeprom_read_byte e TEMPR_0 =? 0xFF then
    let e := eeprom_write_byte TEMPR_0 117 e in
    let e := eeprom_write_byte TEMPR_1 0 e in
    let e := eeprom_write_byte HUMID_0 64 e in
    let e := eeprom_write_byte HUMID_1 0 e in
    let e := eeprom_write_byte LIGHT_0 0 e in
    let e := eeprom_write_byte LIGHT_1 0 e in
    let e := eeprom_write_byte PACKET0 0 e in
    let e := eeprom_write_byte PACKET1 0 e in
    eeprom_write_byte PACKET2 0 e
  else e.

(** Head of the outer loop: pick the slot pair of the current panel and read
    it into the local copy. *)
Definition outer_head (st : state) : state :=
  let a := if current st =? 2 then LIGHT_0
           else if current st =? 1 then HUMID_0 else TEMPR_0 in
  let data_0 := eeprom_read_byte (eeprom st) a in
  let data_1 := eeprom_read_byte (eeprom st) (a + 1) in
  st <| addr := a |> <| local_data_0 := data_0 |> <| local_data_1 := data_1 |>.

(** The body of [if (!editing && changed)]. *)
Definition commit (st : state) : state :=
  let st := st <| eeprom := eeprom_update_byte (addr st) (local_data_0 st) (eeprom st) |> in
  st <| eeprom := eeprom_update_byte (addr st + 1) (local_data_1 st) (eeprom st) |>.

(** The [switch (current)] over the three panels. *)
Definition panel_config (b : buttons) (st : state) : state :=
  let run cfg :=
    let '(d0, d1, st) := cfg b (local_data_0 st) (local_data_1 st) st in
    st <| local_data_0 := d0 |> <| local_data_1 := d1 |> in
  if current st =? 0 then run tempr_config
  else if current st =? 1 then run humid_config
  else if current st =? 2 then run light_config
  else st.

(** The body of the inner loop after the commit test: the [break] when the
    panel selection changed (the head of the outer loop then runs, so that
    the next pass starts with the new panel's slots), else the panel, the
    clock, the packet and the two exchanges. *)
Definition loop_rest (b : buttons) (st : state) : state :=
  if negb (current_loop st =? current st) then
    outer_head (st <| current_loop := current st |>)
  else
    let st := panel_config b st in
    let st := clk st in
    let st := packet_config st in
    let st := st <| io_char := eeprom_read_byte (eeprom st) PACKET0 |> in
    let st := st <| temp_char := eeprom_read_byte (eeprom st) PACKET1 |> in
    let st := st <| humid_char := eeprom_read_byte (eeprom st) PACKET2 |> in
    let st := imp_exchange st in
    xbee_exchange st.

(** One pass through the body of the inner loop. *)
Definition loop_body (b : buttons) (st : state) : state :=
  let st := btn_db_mod b st in
  let st := if (editing st =? 0) && nz (changed st) then commit st else st in
  loop_rest b st.

Definition run (bs : list buttons) (st : state) : state :=
  fold_left (fun st b => loop_body b st) bs st.

(** The state in which [main] enters its loops, for a given EEPROM content
    and a given serial line. *)
Definition main_entry (e : gmap Z Z) (l : uart) : state :=
  outer_head
    {| eeprom := eeprom_defaults e; line := l; faults := [];
       current := 0; editing := 0; changed := 0;
       counter := TCLCL; pos_level := 0;
       ctl := {| fan_on := false; cooler_on := false; heater_on := false;
                 ac_auto := false; tempr_val := 75; humid_on := false;
                 humid_val := 40; lights := false; lights_auto := false |};
       temp_sen := 0; humid_sen := 0;
       tempDataByte := 0; io_char := 0; temp_char := 0; humid_char := 0;
       current_loop := 0; addr := TEMPR_0;
       local_data_0 := 0; local_data_1 := 0 |}.

(** ** The settings as the program stores them

    The five settings slots and their reading as a [Settings] value: the
    digits and the two-bit fields are the ones [tempr_config],
    [humid_config] and [light_config] extract and display. *)

Inductive TemperatureMode := ModeAuto | ModeFan | ModeHeat | ModeCool.
Inductive LightMode := LightAuto | LightOff | LightOn.

Record Settings := {
  temperatureTarget : Z;
  temperatureMode : TemperatureMode;
  humidityTarget : Z;
  humidityEnabled : bool;
  lightMode : LightMode
}.

Definition mode_bits (m : TemperatureMode) : Z :=
  match m with ModeAuto => 0 | ModeFan => 1 | ModeHeat => 2 | ModeCool => 3 end.

Definition light_bits (l : LightMode) : Z :=
  match l with LightAuto => 0 | LightOff => 1 | LightOn => 2 end.

Definition mode_of_bits (m : Z) : TemperatureMode :=
  if m =? 3 then ModeCool else if m =? 2 then ModeHeat
  else if m =? 1 then ModeFan else ModeAuto.

Definition light_of_bits (l : Z) : LightMode :=
  if l =? 2 then LightOn else if l =? 1 then LightOff else LightAuto.

Definition bcd (n : Z) : Z := Z.lor (Z.shiftl (n / 10) 4) (n mod 10).

Definition bcd_high (d : Z) : Z := Z.shiftr (Z.land d 0xF0) 4.
Definition bcd_low (d : Z) : Z := Z.land d 0x0F.

Definition settings_slots : list Z :=
  [TEMPR_0; TEMPR_1; HUMID_0; HUMID_1; LIGHT_0].

(** The settings held by an EEPROM. *)
Definition load_settings (e : gmap Z Z) : Settings :=
  let data_0 := eeprom_read_byte e TEMPR_0 in
  let data_1 := eeprom_read_byte e TEMPR_1 in
  let data_2 := eeprom_read_byte e HUMID_0 in
  let data_3 := eeprom_read_byte e HUMID_1 in
  let data_4 := eeprom_read_byte e LIGHT_0 in
  {| temperatureTarget := bcd_high data_0 * 10 + bcd_low data_0;
     temperatureMode := mode_of_bits (Z.shiftr (Z.land data_1 0xC0) 6);
     humidityTarget := bcd_high data_2 * 10 + bcd_low data_2;
     humidityEnabled := Z.shiftr (Z.land data_3 0x80) 7 =? 1;
     lightMode := light_of_bits (Z.shiftr (Z.land data_4 0xC0) 6) |}.

(** An EEPROM holding the settings [s]. *)
Definition store_settings (s : Settings) (e : gmap Z Z) : gmap Z Z :=
  let e := eeprom_write_byte TEMPR_0 (bcd (temperatureTarget s)) e in
  let e := eeprom_write_byte TEMPR_1 (Z.shiftl (mode_bits (temperatureMode s)) 6) e in
  let e := eeprom_write_byte HUMID_0 (bcd (humidityTarget s)) e in
  let e := eeprom_write_byte HUMID_1 (Z.shiftl (Z.b2z (humidityEnabled s)) 7) e in
  eeprom_write_byte LIGHT_0 (Z.shiftl (light_bits (lightMode s)) 6) e.

Definition valid_settings (s : Settings) : Prop :=
  0 <= temperatureTarget s <= 99 /\ 0 <= humidityTarget s <= 99.

(** The three packet bytes held by an EEPROM. *)
Definition packet_of (e : gmap Z Z) : Z * Z * Z :=
  (eeprom_read_byte e PACKET0, eeprom_read_byte e PACKET1,
   eeprom_read_byte e PACKET2).

(** Encoding is [packet_config] on the stored settings, decoding is
    [var_config] on the stored packet. *)
Definition encode (st : state) (s : Settings) : Z * Z * Z :=
  packet_of (eeprom (packet_config (st <| eeprom := store_settings s (eeprom st) |>))).

Definition decode (st : state) (p : Z * Z * Z) : Settings :=
  let '(b0, b1, b2) := p in
  let e := eeprom_write_byte PACKET0 b0 (eeprom st) in
  let e := eeprom_write_byte PACKET1 b1 e in
  let e := eeprom_write_byte PACKET2 b2 e in
  load_settings (eeprom (var_config (st <| eeprom := e |>))).

(** The wire layout of the three packet bytes, bit by bit:
    flags: bit6 lights_auto, bit5 lights, bit4 cooler_on, bit3 heater_on,
    bit2 fan_on, bit1 ac_auto; temperature: bits 0-6; humidity: bit7
    humid_on, bits 0-6 the target. *)
Definition wire_flags (s : Settings) : Z :=
  match lightMode s with LightAuto => 0x40 | LightOn => 0x20 | LightOff => 0 end +
  match temperatureMode s with
  | ModeCool => 0x10 | ModeHeat => 0x08 | ModeFan => 0x04 | ModeAuto => 0x02
  end.

Definition wire_temperature (s : Settings) : Z := temperatureTarget s.

Definition wire_humidity (s : Settings) : Z :=
  (if humidityEnabled s then 0x80 else 0) + humidityTarget s.

Definition wire_packet (s : Settings) : Z * Z * Z :=
  (wire_flags s, wire_temperature s, wire_humidity s).

(** A serial line on which nothing arrives and every transmit wait
    succeeds. *)
Definition idle_line : uart :=
  {| imp_rx := []; xbee_rx := []; udre := repeat true 16;
     imp_tx := []; xbee_tx := [] |}.

(** The settings 75 F / Auto, 40 % with the humidifier on, lights on Auto. *)
Definition settings_humidifier_on : Settings :=
  {| temperatureTarget := 75; temperatureMode := ModeAuto;
     humidityTarget := 40; humidityEnabled := true; lightMode := LightAuto |}.

(** ** Vocabulary for the two exchanges *)

(** The byte returned by the [n]-th timed read on a line. *)
Fixpoint rx_byte (rx : list (option Z)) (n : nat) : Z :=
  match n with
  | O => fst (timed_read rx)
  | S n' => rx_byte (snd (timed_read rx)) n'
  end.

(** The bytes of [bs] that reach the transmit register, given the outcomes
    of the successive transmit waits. *)
Fixpoint transmitted (u : list bool) (bs : list Z) : list Z :=
  match bs with
  | [] => []
  | b :: bs' =>
      let '(ready, u') := timed_wait u in
      if ready then b :: transmitted u' bs' else transmitted u' bs'
  end.

(** A payload byte: a byte other than the 0xFF sentinel. *)
Definition payload_byte (b : Z) : Prop := 0 <= b < 256 /\ b <> 0xFF.

Inductive peer := Imp | Xbee.

Definition exchange (p : peer) : state -> state :=
  match p with Imp => imp_exchange | Xbee => xbee_exchange end.

(** An exchange aborts when a header byte does not match or one of the
    payload reads returns 0xFF. *)
Definition imp_aborts (rx : list (option Z)) : Prop :=
  rx_byte rx 0 <> 0xA9 \/ rx_byte rx 1 <> 0x65 \/
  rx_byte rx 2 = 0xFF \/ rx_byte rx 3 = 0xFF \/ rx_byte rx 4 = 0xFF.

Definition xbee_aborts (rx : list (option Z)) : Prop :=
  rx_byte rx 0 <> 0xE3 \/ rx_byte rx 1 = 0xFF \/ rx_byte rx 2 = 0xFF.

Definition aborts (p : peer) (st : state) : Prop :=
  match p with
  | Imp => imp_aborts (imp_rx (line st))
  | Xbee => xbee_aborts (xbee_rx (line st))
  end.

(** ** Concrete states used in examples *)

Definition line_with (imp xbee : list (option Z)) : uart :=
  {| imp_rx := imp; xbee_rx := xbee; udre := repeat true 16;
     imp_tx := []; xbee_tx := [] |}.

(** The state after start-up on an erased EEPROM, with the given bytes
    arriving from the two peers. *)
Definition booted (imp xbee : list (option Z)) : state :=
  main_entry ∅ (line_with imp xbee).

(** What [var_config] writes to the five settings slots for the payload
    [f], [t], [h]. *)
Definition decoded_slots (f t h : Z) : list Z :=
  [ Z.lor (u8 (Z.shiftl (t / 10) 4)) (t mod 10);
    Z.shiftl (tempr_set_of f) 6;
    Z.lor (u8 (Z.shiftl (h / 10) 4)) (h mod 10);
    Z.land h 0x80;
    Z.shiftl (light_set_of f) 6 ].

Definition read_slots (e : gmap Z Z) : list Z :=
  map (eeprom_read_byte e) settings_slots.

(** The statement that every accepted set command persists temperature
    digits in [0,9]. *)
Definition set_command_persists_decimal_digits : Prop :=
  forall st f t h rx,
    imp_rx (line st) = Some 0xA9 :: Some 0x65 :: Some f :: Some t :: Some h :: rx ->
    payload_byte f -> payload_byte t -> payload_byte h ->
    Z.land t 0x80 = 0 ->
    let d := eeprom_read_byte (eeprom (imp_exchange st)) TEMPR_0 in
    bcd_high d <= 9 /\ bcd_low d <= 9.

(** What an aborted exchange leaves as it was: the EEPROM and the two
    sensed readings. *)
Definition kept (st st' : state) : Prop :=
  eeprom st' = eeprom st /\ temp_sen st' = temp_sen st /\
  humid_sen st' = humid_sen st.

(** An accepted set command: 75 F, Auto, 40 %. *)
Definition st_set_command : state :=
  booted [Some 0xA9; Some 0x65; Some 0x02; Some 0x4B; Some 0x28] [].

(** A status request. *)
Definition st_status_request : state :=
  booted [Some 0xA9; Some 0x65; Some 0x02; Some 0x80; Some 0x28] [].

(** The Imp times out after two payload bytes; the Xbee has nothing. *)
Definition st_imp_two_bytes : state :=
  booted [Some 0xA9; Some 0x65; Some 0x12; Some 0x34; None] [].

(** The Xbee sends the sentinel as its second payload byte. *)
Definition st_xbee_sentinel : state :=
  booted [] [Some 0xE3; Some 0x20; Some 0xFF].

(** A set command whose temperature byte is 100. *)
Definition st_set_command_100 : state :=
  booted [Some 0xA9; Some 0x65; Some 0x02; Some 100; Some 0x28] [].

(** The Imp times out after two payload bytes and the Xbee then delivers a
    complete sensor frame. *)
Definition st_partial_then_sensor : state :=
  booted [Some 0xA9; Some 0x65; Some 0x12; Some 0x34; None]
         [Some 0xE3; Some 0x20; Some 0x30].

(** ** Vocabulary for the editing functions *)

(** The target a BCD byte stands for. *)
Definition target_of (d : Z) : Z := bcd_high d * 10 + bcd_low d.

(** A sequence of passes through [tempr_config], one button sample each. *)
Fixpoint tempr_edit (bs : list buttons) (data_0 data_1 : Z) (st : state)
  : Z * Z * state :=
  match bs with
  | [] => (data_0, data_1, st)
  | b :: bs' =>
      let '(d0, d1, st') := tempr_config b data_0 data_1 st in
      tempr_edit bs' d0 d1 st'
  end.

(** The step-by-5 rule for the humidity digits, as a rule on the decimal
    digits [h] (tens) and [l] (ones): adding 5 to the ones digit carries into
    the tens digit when it exceeds 9 and leaves 0, and the tens digit wraps
    from 10 to 0; subtracting 5 borrows when the ones digit is below 5,
    leaves 5, and the tens digit wraps from below 0 to 9. *)
Definition humid_step_up (h l : Z) : Z * Z :=
  let l := l + 5 in
  let '(h, l) := if 9 <? l then (h + 1, 0) else (h, l) in
  if h =? 10 then (0, l) else (h, l).

Definition humid_step_down (h l : Z) : Z * Z :=
  if l <? 5 then
    let h := h - 1 in
    (if h <? 0 then 9 else h, 5)
  else (h, l - 5).

(** What one press does to a target between 60 and 90. *)
Definition tempr_after (b : buttons) (t : Z) : Z :=
  if btn_2 b then (if t =? 90 then 60 else t + 1)
  else if btn_3 b then (if t =? 60 then 90 else t - 1)
  else t.

(** A state in the value-editing phase of the temperature panel. *)
Definition st_edit_value : state :=
  (booted [] []) <| editing := 2 |>.

(** ** Vocabulary for the main loop *)

(** Two states with the same user-interface variables: the panel and phase,
    the changed flag, the blink clock and main's copy of the panel's slots. *)
Definition same_ui (st st' : state) : Prop :=
  current st' = current st /\ editing st' = editing st /\
  changed st' = changed st /\ counter st' = counter st /\
  pos_level st' = pos_level st /\ current_loop st' = current_loop st /\
  addr st' = addr st /\ local_data_0 st' = local_data_0 st /\
  local_data_1 st' = local_data_1 st.

(** The temperature panel: two presses of button 1 enter the value phase,
    button 2 increments the target, and the fourth press of button 1 returns
    to Idle in the pass in which the Imp delivers a set command for 80 F. *)
Definition st_before_edit : state :=
  booted [None; None; None;
          Some 0xA9; Some 0x65; Some 0x02; Some 80; Some 0x28] [].

Definition st_after_edit : state :=
  run [press_1; press_1; press_2; press_1] st_before_edit.

(** ** Further vocabulary *)

(** The settings written to an erased EEPROM. *)
Definition default_settings : Settings :=
  {| temperatureTarget := 75; temperatureMode := ModeAuto;
     humidityTarget := 40; humidityEnabled := false; lightMode := LightAuto |}.

(** 68 F / Heat, 45 % with the humidifier off, lights on. *)
Definition settings_heat : Settings :=
  {| temperatureTarget := 68; temperatureMode := ModeHeat;
     humidityTarget := 45; humidityEnabled := false; lightMode := LightOn |}.

(** The number of the four temperature-mode bits (bits 1 to 4) set in a
    flags byte. *)
Definition mode_bits_set (f : Z) : Z :=
  Z.b2z (Z.testbit f 1) + Z.b2z (Z.testbit f 2) +
  Z.b2z (Z.testbit f 3) + Z.b2z (Z.testbit f 4).

(** The first slot of a panel. *)
Definition panel_slot (c : Z) : Z :=
  if c =? 2 then LIGHT_0 else if c =? 1 then HUMID_0 else TEMPR_0.

(** What an exchange that sends nothing leaves as it was on the transmit
    side: the two transmit logs, the transmit waits still to come and the
    fault log. *)
Definition silent (st st' : state) : Prop :=
  imp_tx (line st') = imp_tx (line st) /\ xbee_tx (line st') = xbee_tx (line st) /\
  udre (line st') = udre (line st) /\ faults st' = faults st.

(** A state whose EEPROM holds [settings_heat], with a status request
    arriving from the Imp. *)
Definition st_heat_status_request : state :=
  (booted [Some 0xA9; Some 0x65; Some 0x00; Some 0x80; Some 0x00] [])
    <| eeprom := store_settings settings_heat ∅ |>.

(** A complete sensor frame arriving from the Xbee. *)
Definition st_sensor_frame : state :=
  booted [] [Some 0xE3; Some 0x9A; Some 0x30].

(** The user-interface variables are in range: the panel and the phase are
    0, 1 or 2, the light panel is in phase 0 or 1, and main's slot address is
    that of the panel. *)
Definition ui_inv (st : state) : Prop :=
  0 <= current st <= 2 /\ 0 <= editing st <= 2 /\
  (current st = 2 -> editing st <= 1) /\
  current_loop st = current st /\ addr st = panel_slot (current st).

(** The blink clock: the counter is in [1, TCLCL] and the level is high in
    the second half of the period. *)
Definition blink_inv (st : state) : Prop :=
  1 <= counter st <= TCLCL /\
  pos_level st = (if counter st <=? TCLCL / 2 then 1 else 0).

(** A state in the mode-editing phase. *)
Definition st_edit_mode : state :=
  (booted [] []) <| editing := 1 |>.

(** * The auxiliary controller (the second atmega_sys_control.c)

    Its main loop reads two bytes from the Imp with a blocking [usart_in],
    answers a status request or stores the six flags of a command, and
    drives the light output PC0.  One pass of the loop is modelled for the
    two bytes it has received; [usart_out] waits without bound for the
    transmit register, and the bytes it writes are logged. *)
Module Aux.

Record state := {
  lightsOn : Z;
  lightsAuto : Z;
  coolerOn : Z;
  heaterOn : Z;
  fanOn : Z;
  acAutoModeOn : Z;
  temp : Z;
  (* output pin PC0 and the bytes written to UDR0 *)
  pc0 : bool;
  sent : list Z
}.

(** The locals of [main] when the loop is entered. *)
Definition initial : state :=
  {| lightsOn := 1; lightsAuto := 0; coolerOn := 0; heaterOn := 0;
     fanOn := 0; acAutoModeOn := 0; temp := 72; pc0 := false; sent := [] |}.

Definition usart_out (ch : Z) (st : state) : state :=
  st <| sent := sent st ++ [u8 ch] |>.

(** The status branch: the flags byte built from the six variables. *)
Definition status_flags (st : state) : Z :=
  let io_char := 0 in
  let io_char := if 0 <? lightsOn st then Z.lor io_char 0x40 else io_char in
  let io_char := if 0 <? lightsAuto st then Z.lor io_char 0x20 else io_char in
  let io_char := if 0 <? coolerOn st then Z.lor io_char 0x10 else io_char in
  let io_char := if 0 <? heaterOn st then Z.lor io_char 0x08 else io_char in
  let io_char := if 0 <? fanOn st then Z.lor io_char 0x04 else io_char in
  let io_char := if 0 <? acAutoModeOn st then Z.lor io_char 0x02 else io_char in
  Z.lor io_char 0x01.

(** The command branch: each variable from its bit. *)
Definition store_flags (io_char : Z) (st : state) : state :=
  st <| lightsOn := Z.b2z (nz (Z.land io_char 0x40)) |>
     <| lightsAuto := Z.b2z (nz (Z.land io_char 0x20)) |>
     <| coolerOn := Z.b2z (nz (Z.land io_char 0x10)) |>
     <| heaterOn := Z.b2z (nz (Z.land io_char 0x08)) |>
     <| fanOn := Z.b2z (nz (Z.land io_char 0x04)) |>
     <| acAutoModeOn := Z.b2z (nz (Z.land io_char 0x02)) |>.

(** One pass of the loop, for the two bytes [usart_in] returned. *)
Definition loop_body (io_char io_temp : Z) (st : state) : state :=
  let st :=
    if nz (Z.land io_char 0x01) then
      if nz (Z.land io_temp 0x80) then
        let io_char := status_flags st in
        let io_temp := temp st in
        let st := usart_out io_char st in
        usart_out io_temp st
      else store_flags io_char st
    else st in
  if nz (lightsOn st) then st <| pc0 := true |> else st <| pc0 := false |>.

Definition run (ps : list (Z * Z)) (st : state) : state :=
  fold_left (fun st p => loop_body (fst p) (snd p) st) ps st.

End Aux.

(** ** The decode of the wire packet in the specification's words

    Section 4.2 of the specification: the temperature mode is recovered by
    priority, acAutoActive (bit 1), else fanActive (bit 2), else
    heaterActive (bit 3), else Cool; the light mode is lightIsAuto (bit 6),
    else lightIsOn (bit 5), else Off; the two targets and the enable flag
    are copied from their bit fields.  These three definitions follow the
    specification, not the code: they are what the slots persisted by
    [var_config] are compared with. *)
Definition spec_mode (flags : Z) : TemperatureMode :=
  if Z.testbit flags 1 then ModeAuto
  else if Z.testbit flags 2 then ModeFan
  else if Z.testbit flags 3 then ModeHeat else ModeCool.

Definition spec_light (flags : Z) : LightMode :=
  if Z.testbit flags 6 then LightAuto
  else if Z.testbit flags 5 then LightOn else LightOff.

Definition spec_decode (flags temperature humidity : Z) : Settings :=
  {| temperatureTarget := Z.land temperature 0x7F;
     temperatureMode := spec_mode flags;
     humidityTarget := Z.land humidity 0x7F;
     humidityEnabled := Z.testbit humidity 7;
     lightMode := spec_light flags |}.

(** The two digits of the stored temperature are decimal: [packet_config]
    then does not call [data_corruption]. *)
Definition tempr_digits_ok (st : state) : Prop :=
  bcd_high (eeprom_read_byte (eeprom st) TEMPR_0) <= 9 /\
  bcd_low (eeprom_read_byte (eeprom st) TEMPR_0) <= 9.

(** * Properties *)

(** ** Bytes and EEPROM cells *)

Arguments u8 : simpl never.
Arguments eeprom_read_byte : simpl never.
Arguments eeprom_write_byte : simpl never.
Arguments eeprom_update_byte : simpl never.

Lemma u8_range x : 0 <= u8 x < 256.
Proof. unfold u8. apply Z.mod_pos_bound. lia. Qed.

Lemma u8_small b : 0 <= b < 256 -> u8 b = b.
Proof. intros. unfold u8. apply Z.mod_small. lia. Qed.

Lemma u8_u8 x : u8 (u8 x) = u8 x.
Proof. apply u8_small, u8_range. Qed.

(** A decidable property of a byte can be checked by enumeration. *)
Lemma forall_byte (p : Z -> bool) :
  forallb p (map Z.of_nat (seq 0 256)) = true ->
  forall x, 0 <= x < 256 -> p x = true.
Proof.
  intros Hall x Hx.
  rewrite forallb_forall in Hall. apply Hall.
  apply in_map_iff. exists (Z.to_nat x). split; [lia|].
  apply in_seq. lia.
Qed.

Lemma eeprom_read_range e a : 0 <= eeprom_read_byte e a < 256.
Proof. apply u8_range. Qed.

Lemma eeprom_read_write e a b v :
  eeprom_read_byte (eeprom_write_byte a v e) b =
  if decide (a = b) then u8 v else eeprom_read_byte e b.
Proof.
  unfold eeprom_read_byte, eeprom_write_byte.
  rewrite lookup_insert. case_decide; simpl; [apply u8_u8 | done].
Qed.

Lemma eeprom_read_update e a b v :
  eeprom_read_byte (eeprom_update_byte a v e) b =
  if decide (a = b) then u8 v else eeprom_read_byte e b.
Proof.
  unfold eeprom_update_byte.
  destruct (decide (eeprom_read_byte e a = u8 v)) as [Heq|Hne].
  - case_decide; [by subst|done].
  - apply eeprom_read_write.
Qed.

Lemma eeprom_read_update_eq e a v :
  eeprom_read_byte (eeprom_update_byte a v e) a = u8 v.
Proof. rewrite eeprom_read_update. by case_decide. Qed.

Lemma eeprom_read_update_ne e a b v :
  a <> b -> eeprom_read_byte (eeprom_update_byte a v e) b = eeprom_read_byte e b.
Proof. intros. rewrite eeprom_read_update. by case_decide. Qed.

Lemma eeprom_read_write_eq e a v :
  eeprom_read_byte (eeprom_write_byte a v e) a = u8 v.
Proof. rewrite eeprom_read_write. by case_decide. Qed.

Lemma eeprom_read_write_ne e a b v :
  a <> b -> eeprom_read_byte (eeprom_write_byte a v e) b = eeprom_read_byte e b.
Proof. intros. rewrite eeprom_read_write. by case_decide. Qed.

(** Reading back through a stack of writes and updates at the fixed
    locations of the program. *)
Ltac ee_read :=
  repeat first
    [ rewrite eeprom_read_update_eq
    | rewrite eeprom_read_write_eq
    | rewrite eeprom_read_update_ne by (compute; congruence)
    | rewrite eeprom_read_write_ne by (compute; congruence) ].

(** Opening a state into its fields. *)
Ltac open_state st :=
  let l := fresh "l" in
  destruct st as [?ee l ?flt ?cur ?edt ?chg ?cnt ?pos ?ctrl ?tsen ?hsen
                  ?tdb ?ioc ?tch ?hch ?cloop ?adr ?ld0 ?ld1];
  destruct l as [?irx ?xrx ?udr ?itx ?xtx]; cbn in *.

(** ** packet_config: the corruption fault *)

Lemma packet_config_faults st :
  faults (packet_config st) =
  let d := eeprom_read_byte (eeprom st) TEMPR_0 in
  if (9 <? bcd_high d) || (9 <? bcd_low d)
  then faults st ++ [TEMPR_0] else faults st.
Proof.
  open_state st. unfold packet_config, bcd_high, bcd_low. cbn.
  by destruct (_ || _).
Qed.

(** C8. [packet_config] calls [data_corruption] exactly when one of the two
    digits of the persisted temperature byte exceeds 9, and then with the
    location [TEMPR_0]; whatever the persisted humidity byte holds, no fault
    is signalled for it: with both temperature digits in range the fault log
    is unchanged. *)
Theorem packet_config_fault_iff_temperature_digit (st : state) :
  let d := eeprom_read_byte (eeprom st) TEMPR_0 in
  (faults (packet_config st) = faults st ++ [TEMPR_0]
     <-> 9 < bcd_high d \/ 9 < bcd_low d) /\
  (faults (packet_config st) = faults st
     <-> bcd_high d <= 9 /\ bcd_low d <= 9).
Proof.
  intros d. rewrite packet_config_faults. cbv zeta. fold d.
  assert (Hne : faults st ++ [TEMPR_0] <> faults st).
  { intros H. apply (f_equal length) in H.
    rewrite length_app in H. cbn in H. lia. }
  destruct (9 <? bcd_high d) eqn:Hh; destruct (9 <? bcd_low d) eqn:Hl; cbn;
    rewrite ?Z.ltb_lt, ?Z.ltb_ge in Hh, Hl.
  all: split; split; intros H; try done; try lia; try (exfalso; lia).
  all: exfalso; by apply Hne.
Qed.

(** ** The codec *)

(** Facts about byte expressions in one bounded variable, by enumeration
    of the bytes. *)
Lemma byte_check (lo hi : Z) (p : Z -> bool) :
  0 <= lo -> hi < 256 ->
  forallb (fun x => (x <? lo) || (hi <? x) || p x)
          (map Z.of_nat (seq 0 256)) = true ->
  forall x, lo <= x <= hi -> p x = true.
Proof.
  intros Hlo Hhi Hall x Hx.
  pose proof (forall_byte _ Hall x ltac:(lia)) as H. cbn beta in H.
  destruct (Z.ltb_spec x lo); [lia|].
  destruct (Z.ltb_spec hi x); [lia|].
  exact H.
Qed.

Ltac by_bytes v H :=
  lazymatch goal with
  | |- @eq Z _ _ => apply Z.eqb_eq
  | |- _ = false => apply negb_true_iff
  | |- _ = true => idtac
  end;
  clear - H; revert v H;
  lazymatch goal with
  | |- forall z, ?lo <= z <= ?hi -> @?p z = true =>
      apply (byte_check lo hi p); [lia | lia | vm_compute; reflexivity]
  end.

Lemma eeprom_packet_config st :
  exists b0 b1 b2,
    eeprom (packet_config st) =
    eeprom_update_byte PACKET2 b2
      (eeprom_update_byte PACKET1 b1 (eeprom_update_byte PACKET0 b0 (eeprom st))).
Proof. open_state st. unfold packet_config. cbn. by destruct (_ || _); eauto. Qed.

Lemma read_store_settings s e :
  eeprom_read_byte (store_settings s e) TEMPR_0 = u8 (bcd (temperatureTarget s)) /\
  eeprom_read_byte (store_settings s e) TEMPR_1
    = u8 (Z.shiftl (mode_bits (temperatureMode s)) 6) /\
  eeprom_read_byte (store_settings s e) HUMID_0 = u8 (bcd (humidityTarget s)) /\
  eeprom_read_byte (store_settings s e) HUMID_1
    = u8 (Z.shiftl (Z.b2z (humidityEnabled s)) 7) /\
  eeprom_read_byte (store_settings s e) LIGHT_0
    = u8 (Z.shiftl (light_bits (lightMode s)) 6).
Proof. unfold store_settings. repeat split; by ee_read. Qed.

(** Encoding follows the wire layout. *)
Lemma encode_wire st s :
  valid_settings s -> encode st s = wire_packet s.
Proof.
  intros [Ht Hh]. unfold encode, packet_of, wire_packet.
  open_state st. unfold packet_config. cbn. unfold constant.
  match goal with |- context [store_settings s ?e] =>
    destruct (read_store_settings s e) as (R0 & R1 & R2 & R3 & R4) end.
  ee_read. rewrite R0, R1, R2, R3, R4. clear R0 R1 R2 R3 R4.
  destruct s as [t m h en l]. cbn in *.
  unfold wire_flags, wire_temperature, wire_humidity. cbn.
  f_equal; [f_equal|].
  - by destruct m, l.
  - by_bytes t Ht.
  - destruct en; by_bytes h Hh.
Qed.

(** What [var_config] stores for a packet, read back as settings. *)
Lemma decode_bytes st b0 b1 b2 :
  decode st (b0, b1, b2) =
  let tempr := Z.lor (u8 (Z.shiftl (u8 b1 / 10) 4)) (u8 (u8 b1 mod 10)) in
  let humid := Z.lor (u8 (Z.shiftl (u8 b2 / 10) 4)) (u8 (u8 b2 mod 10)) in
  {| temperatureTarget := bcd_high (u8 tempr) * 10 + bcd_low (u8 tempr);
     temperatureMode :=
       mode_of_bits
         (Z.shiftr (Z.land (u8 (u8 (Z.shiftl (tempr_set_of (u8 b0)) 6))) 0xC0) 6);
     humidityTarget := bcd_high (u8 humid) * 10 + bcd_low (u8 humid);
     humidityEnabled :=
       Z.shiftr (Z.land (u8 (u8 (Z.land (u8 b2) 0x80))) 0x80) 7 =? 1;
     lightMode :=
       light_of_bits
         (Z.shiftr (Z.land (u8 (u8 (Z.shiftl (light_set_of (u8 b0)) 6))) 0xC0) 6) |}.
Proof.
  open_state st. unfold decode, load_settings, var_config. cbn. unfold constant.
  by ee_read.
Qed.

(** X1.  With the humidifier off, [var_config] undoes [packet_config]:
    decoding an encoded packet gives the settings back. *)
Lemma decode_encode_humidifier_off st s :
  valid_settings s -> humidityEnabled s = false ->
  decode st (encode st s) = s.
Proof.
  intros Hv Hoff. rewrite (encode_wire _ _ Hv). destruct Hv as [Ht Hh].
  unfold wire_packet. rewrite decode_bytes.
  destruct s as [t m h en l]. cbn in *. subst en.
  unfold wire_flags, wire_temperature, wire_humidity. cbn.
  f_equal.
  - by_bytes t Ht.
  - by destruct m, l.
  - by_bytes h Hh.
  - by_bytes h Hh.
  - by destruct m, l.
Qed.

(** X2.  With the humidifier on, [var_config] divides the whole humidity
    byte, enable bit included, by ten: the target read back is never the one
    that was encoded, so no valid settings survive the round trip. *)
Lemma decode_encode_humidifier_on st s :
  valid_settings s -> humidityEnabled s = true ->
  humidityTarget (decode st (encode st s))
    = ((128 + humidityTarget s) / 10) mod 16 * 10 + (128 + humidityTarget s) mod 10
  /\ decode st (encode st s) <> s.
Proof.
  intros Hv Hon. rewrite (encode_wire _ _ Hv). destruct Hv as [Ht Hh].
  unfold wire_packet. rewrite decode_bytes.
  destruct s as [t m h en l]. cbn in *. subst en.
  unfold wire_humidity. cbn.
  assert (E : bcd_high (u8 (Z.lor (u8 (Z.shiftl (u8 (128 + h) / 10) 4))
                                  (u8 (u8 (128 + h) mod 10)))) * 10
              + bcd_low (u8 (Z.lor (u8 (Z.shiftl (u8 (128 + h) / 10) 4))
                                   (u8 (u8 (128 + h) mod 10))))
              = ((128 + h) / 10) mod 16 * 10 + (128 + h) mod 10)
    by by_bytes h Hh.
  split; [exact E|].
  intros Heq. apply (f_equal humidityTarget) in Heq. cbn in Heq.
  rewrite E in Heq.
  assert (Hm : (((128 + h) / 10) mod 16 * 10 + (128 + h) mod 10) mod 10 = h mod 10)
    by (by rewrite Heq).
  rewrite Z.add_comm, Z.mod_add, Z.mod_mod in Hm by lia.
  clear E Heq. Z.div_mod_to_equations. lia.
Qed.

(** C1, at the failing input.  The valid settings 75 F / Auto, 40 % with the
    humidifier on, lights on Auto are encoded by [packet_config] as
    0x42 0x4B 0xA8 and decoded by [var_config] as settings whose humidity
    target is 8: the round trip does not give the settings back. *)
Theorem roundtrip_fails_with_humidifier_on :
  let st := main_entry ∅ idle_line in
  let s := settings_humidifier_on in
  valid_settings s /\
  encode st s = (0x42, 0x4B, 0xA8) /\
  humidityTarget (decode st (encode st s)) = 8 /\
  decode st (encode st s) <> s.
Proof.
  cbv zeta. split; [|split; [|split]].
  - unfold valid_settings, settings_humidifier_on. cbn. lia.
  - by vm_compute.
  - by vm_compute.
  - intros H. apply (f_equal humidityTarget) in H. vm_compute in H. discriminate.
Qed.
(** ** The serial exchanges *)

Arguments transmitted : simpl never.
Arguments packet_config : simpl never.
Arguments var_config : simpl never.
Arguments imp_status_reply : simpl never.
Arguments imp_set_command : simpl never.
Arguments imp_dispatch : simpl never.
Arguments imp_payload_humid : simpl never.
Arguments imp_payload_temp : simpl never.
Arguments imp_payload_flags : simpl never.
Arguments imp_header_1 : simpl never.
Arguments imp_exchange : simpl never.
Arguments xbee_ack : simpl never.
Arguments xbee_payload_humid : simpl never.
Arguments xbee_payload_temp : simpl never.
Arguments xbee_exchange : simpl never.

Lemma read_imp_eq st :
  read_imp st =
  st <| line := (line st) <| imp_rx := snd (timed_read (imp_rx (line st))) |> |>
     <| tempDataByte := fst (timed_read (imp_rx (line st))) |>.
Proof.
  open_state st. unfold read_imp, usart_in_imp. cbn.
  by destruct (timed_read _).
Qed.

Lemma read_xbee_eq st :
  read_xbee st =
  st <| line := (line st) <| xbee_rx := snd (timed_read (xbee_rx (line st))) |> |>
     <| tempDataByte := fst (timed_read (xbee_rx (line st))) |>.
Proof.
  open_state st. unfold read_xbee, usart_in_xbee. cbn.
  by destruct (timed_read _).
Qed.

Lemma usart_out_xbee_eq ch st :
  usart_out_xbee ch st =
  st <| line := (line st)
         <| udre := snd (timed_wait (udre (line st))) |>
         <| xbee_tx := xbee_tx (line st)
                         ++ transmitted (udre (line st)) [u8 ch] |> |>.
Proof.
  open_state st. unfold usart_out_xbee, transmitted. cbn.
  destruct (timed_wait _) as [[] u]; cbn; unfold constant; [done|].
  by rewrite app_nil_r.
Qed.

Lemma usart_out_imp_eq ch st :
  usart_out_imp ch st =
  st <| line := (line st)
         <| udre := snd (timed_wait (udre (line st))) |>
         <| imp_tx := imp_tx (line st)
                        ++ transmitted (udre (line st)) [u8 ch] |> |>.
Proof.
  open_state st. unfold usart_out_imp, transmitted. cbn.
  destruct (timed_wait _) as [[] u]; cbn; unfold constant; [done|].
  by rewrite app_nil_r.
Qed.

Lemma transmitted_cons u b bs :
  transmitted u (b :: bs) =
  transmitted u [b] ++ transmitted (snd (timed_wait u)) bs.
Proof. unfold transmitted at 1 2. by destruct (timed_wait u) as [[] u']. Qed.

Lemma transmitted_all_ready bs u :
  transmitted (repeat true (length bs) ++ u) bs = bs.
Proof.
  induction bs as [|b bs IH]; [done|].
  cbn [length repeat app]. unfold transmitted. cbn. by f_equal.
Qed.

(** Running one block of an exchange on an opened state. *)
Ltac stage f :=
  unfold f, read_imp, usart_in_imp, read_xbee, usart_in_xbee; cbn;
  unfold constant; rewrite ?u8_small by lia; cbn.

(** A completed exchange with the Imp runs one of the two branches on the
    received payload. *)
Lemma imp_exchange_complete st f t h rx :
  imp_rx (line st) = Some 0xA9 :: Some 0x65 :: Some f :: Some t :: Some h :: rx ->
  payload_byte f -> payload_byte t -> payload_byte h ->
  imp_exchange st =
  imp_dispatch
    (st <| line := (line st) <| imp_rx := rx |> |>
        <| tempDataByte := h |> <| io_char := f |>
        <| temp_char := t |> <| humid_char := h |>).
Proof.
  intros Hrx [Hf Hf'] [Ht Ht'] [Hh Hh'].
  apply Z.eqb_neq in Hf', Ht', Hh'.
  open_state st. subst.
  stage imp_exchange. stage imp_header_1.
  stage imp_payload_flags. rewrite Hf'. cbn.
  stage imp_payload_temp. rewrite Ht'. cbn.
  stage imp_payload_humid. rewrite Hh'. cbn.
  reflexivity.
Qed.

Lemma imp_set_command_eq st :
  imp_set_command st =
  let e := eeprom_update_byte PACKET0 (io_char st) (eeprom st) in
  let e := eeprom_update_byte PACKET1 (temp_char st) e in
  let e := eeprom_update_byte PACKET2 (humid_char st) e in
  let st1 := var_config (st <| eeprom := e |>) in
  st1 <| line := (line st)
          <| udre := snd (timed_wait (snd (timed_wait (snd (timed_wait (udre (line st))))))) |>
          <| xbee_tx := xbee_tx (line st)
               ++ transmitted (udre (line st))
                    [u8 (io_char st); u8 (temp_char st); u8 (humid_char st)] |> |>.
Proof.
  unfold imp_set_command. rewrite !usart_out_xbee_eq.
  open_state st. unfold var_config, transmitted. cbn. unfold constant.
  destruct (timed_wait udr) as [[] u1]; cbn;
    destruct (timed_wait u1) as [[] u2]; cbn;
    destruct (timed_wait u2) as [[] u3]; cbn;
    by rewrite <- ?app_assoc, ?app_nil_r.
Qed.

Lemma imp_status_reply_eeprom st :
  eeprom (imp_status_reply st) = eeprom (packet_config st).
Proof.
  unfold imp_status_reply. rewrite !usart_out_imp_eq.
  by open_state (packet_config st).
Qed.

Lemma xbee_tx_imp_status_reply st :
  xbee_tx (line (imp_status_reply st)) = xbee_tx (line st).
Proof.
  unfold imp_status_reply. rewrite !usart_out_imp_eq.
  open_state st. unfold packet_config. cbn.
  by destruct (_ || _).
Qed.

Lemma payload_byte_le b : payload_byte b -> 0 <= b <= 255.
Proof. unfold payload_byte. lia. Qed.

Lemma tempr_set_of_range f : 0 <= tempr_set_of f <= 3.
Proof. unfold tempr_set_of. repeat case_match; lia. Qed.

Lemma light_set_of_range f : 0 <= light_set_of f <= 3.
Proof. unfold light_set_of. repeat case_match; lia. Qed.

Lemma read_slots_packet_config st :
  read_slots (eeprom (packet_config st)) = read_slots (eeprom st).
Proof.
  destruct (eeprom_packet_config st) as (b0 & b1 & b2 & ->).
  unfold read_slots, settings_slots. cbn [map]. by ee_read.
Qed.

Lemma read_slots_imp_set_command st f t h :
  io_char st = f -> temp_char st = t -> humid_char st = h ->
  payload_byte f -> payload_byte t -> payload_byte h ->
  read_slots (eeprom (imp_set_command st)) = decoded_slots f t h.
Proof.
  intros <- <- <- Hf%payload_byte_le Ht%payload_byte_le Hh%payload_byte_le.
  rewrite imp_set_command_eq. open_state st. unfold var_config. cbn.
  unfold constant, read_slots, decoded_slots, settings_slots. cbn [map].
  ee_read. rewrite !(u8_small ioc), !(u8_small tch), !(u8_small hch) by lia.
  repeat f_equal.
  - by_bytes tch Ht.
  - pose proof (tempr_set_of_range ioc) as H. revert H.
    generalize (tempr_set_of ioc) as m. intros m H. rewrite u8_u8. by_bytes m H.
  - by_bytes hch Hh.
  - rewrite u8_u8. by_bytes hch Hh.
  - pose proof (light_set_of_range ioc) as H. revert H.
    generalize (light_set_of ioc) as m. intros m H. rewrite u8_u8. by_bytes m H.
Qed.

(** The slots [var_config] writes, with the mode and the light setting in
    the specification's words and the digits as plain arithmetic. *)
Lemma decoded_slots_spec f t h :
  0 <= f <= 255 -> 0 <= t <= 255 -> 0 <= h <= 255 -> Z.land t 0x80 = 0 ->
  decoded_slots f t h =
  [ 16 * (t / 10) + t mod 10;
    64 * mode_bits (spec_mode f);
    16 * ((h / 10) mod 16) + h mod 10;
    128 * Z.b2z (Z.testbit h 7);
    64 * light_bits (spec_light f) ].
Proof.
  intros Hf Ht Hh Htop. unfold decoded_slots.
  assert (E1 : (negb (Z.land t 0x80 =? 0)) ||
               (Z.lor (u8 (Z.shiftl (t / 10) 4)) (t mod 10)
                  =? 16 * (t / 10) + t mod 10) = true) by (by_bytes t Ht).
  rewrite Htop in E1. cbn in E1. apply Z.eqb_eq in E1.
  f_equal; [exact E1|]. f_equal; [by_bytes f Hf|].
  f_equal; [by_bytes h Hh|]. f_equal; [by_bytes h Hh|].
  f_equal. by_bytes f Hf.
Qed.

(** The settings held by an EEPROM whose five slots are known. *)
Lemma load_settings_slots e a b c d l :
  read_slots e = [a; b; c; d; l] ->
  load_settings e =
  {| temperatureTarget := bcd_high a * 10 + bcd_low a;
     temperatureMode := mode_of_bits (Z.shiftr (Z.land b 0xC0) 6);
     humidityTarget := bcd_high c * 10 + bcd_low c;
     humidityEnabled := Z.shiftr (Z.land d 0x80) 7 =? 1;
     lightMode := light_of_bits (Z.shiftr (Z.land l 0xC0) 6) |}.
Proof.
  unfold read_slots, settings_slots, load_settings. cbn [map].
  intros H. by injection H as -> -> -> -> ->.
Qed.



(** ** Aborted exchanges *)


Lemma imp_payload_humid_abort st :
  rx_byte (imp_rx (line st)) 0 = 0xFF -> eeprom (imp_payload_humid st) = eeprom st /\ temp_sen (imp_payload_humid st) = temp_sen st /\
  humid_sen (imp_payload_humid st) = humid_sen st.
Proof.
  cbn [rx_byte]. intros H. open_state st.
  destruct (timed_read irx) as [b r] eqn:E. cbn in H. subst b.
  stage imp_payload_humid. by rewrite E.
Qed.

Lemma imp_payload_temp_abort st :
  rx_byte (imp_rx (line st)) 0 = 0xFF \/ rx_byte (imp_rx (line st)) 1 = 0xFF ->
  eeprom (imp_payload_temp st) = eeprom st /\ temp_sen (imp_payload_temp st) = temp_sen st /\
  humid_sen (imp_payload_temp st) = humid_sen st.
Proof.
  cbn [rx_byte]. intros H. open_state st.
  destruct (timed_read irx) as [b r] eqn:E. cbn in H.
  stage imp_payload_temp. rewrite E. cbn.
  destruct (b =? 255) eqn:Eb; cbn; [done|].
  apply Z.eqb_neq in Eb. destruct H as [H|H]; [done|].
  by apply (imp_payload_humid_abort (Build_state _ (Build_uart _ _ _ _ _) _ _ _ _ _ _ _ _ _ _ _ _ _ _ _ _ _)).
Qed.

Lemma imp_payload_flags_abort st :
  rx_byte (imp_rx (line st)) 0 = 0xFF \/ rx_byte (imp_rx (line st)) 1 = 0xFF \/
  rx_byte (imp_rx (line st)) 2 = 0xFF ->
  eeprom (imp_payload_flags st) = eeprom st /\ temp_sen (imp_payload_flags st) = temp_sen st /\
  humid_sen (imp_payload_flags st) = humid_sen st.
Proof.
  cbn [rx_byte]. intros H. open_state st.
  destruct (timed_read irx) as [b r] eqn:E. cbn in H.
  stage imp_payload_flags. rewrite E. cbn.
  destruct (b =? 255) eqn:Eb; cbn; [done|].
  apply Z.eqb_neq in Eb. destruct H as [H|H]; [done|].
  by apply (imp_payload_temp_abort (Build_state _ (Build_uart _ _ _ _ _) _ _ _ _ _ _ _ _ _ _ _ _ _ _ _ _ _)).
Qed.

Lemma imp_header_1_abort st :
  rx_byte (imp_rx (line st)) 0 <> 0x65 \/ rx_byte (imp_rx (line st)) 1 = 0xFF \/
  rx_byte (imp_rx (line st)) 2 = 0xFF \/ rx_byte (imp_rx (line st)) 3 = 0xFF ->
  eeprom (imp_header_1 st) = eeprom st /\ temp_sen (imp_header_1 st) = temp_sen st /\
  humid_sen (imp_header_1 st) = humid_sen st.
Proof.
  cbn [rx_byte]. intros H. open_state st.
  destruct (timed_read irx) as [b r] eqn:E. cbn in H.
  stage imp_header_1. rewrite E. cbn.
  destruct (b =? 101) eqn:Eb; cbn; [|done].
  apply Z.eqb_eq in Eb. destruct H as [H|H]; [done|].
  by apply (imp_payload_flags_abort (Build_state _ (Build_uart _ _ _ _ _) _ _ _ _ _ _ _ _ _ _ _ _ _ _ _ _ _)).
Qed.

Lemma imp_abort_kept st :
  imp_aborts (imp_rx (line st)) -> eeprom (imp_exchange st) = eeprom st /\ temp_sen (imp_exchange st) = temp_sen st /\
  humid_sen (imp_exchange st) = humid_sen st.
Proof.
  unfold imp_aborts. cbn [rx_byte]. intros H. open_state st.
  destruct (timed_read irx) as [b r] eqn:E. cbn in H.
  stage imp_exchange. rewrite E. cbn.
  destruct (b =? 169) eqn:Eb; cbn; [|done].
  apply Z.eqb_eq in Eb. destruct H as [H|H]; [done|].
  by apply (imp_header_1_abort (Build_state _ (Build_uart _ _ _ _ _) _ _ _ _ _ _ _ _ _ _ _ _ _ _ _ _ _)).
Qed.

Lemma xbee_payload_humid_abort st :
  rx_byte (xbee_rx (line st)) 0 = 0xFF -> eeprom (xbee_payload_humid st) = eeprom st /\ temp_sen (xbee_payload_humid st) = temp_sen st /\
  humid_sen (xbee_payload_humid st) = humid_sen st.
Proof.
  cbn [rx_byte]. intros H. open_state st.
  destruct (timed_read xrx) as [b r] eqn:E. cbn in H. subst b.
  stage xbee_payload_humid. by rewrite E.
Qed.

Lemma xbee_payload_temp_abort st :
  rx_byte (xbee_rx (line st)) 0 = 0xFF \/ rx_byte (xbee_rx (line st)) 1 = 0xFF ->
  eeprom (xbee_payload_temp st) = eeprom st /\ temp_sen (xbee_payload_temp st) = temp_sen st /\
  humid_sen (xbee_payload_temp st) = humid_sen st.
Proof.
  cbn [rx_byte]. intros H. open_state st.
  destruct (timed_read xrx) as [b r] eqn:E. cbn in H.
  stage xbee_payload_temp. rewrite E. cbn.
  destruct (b =? 255) eqn:Eb; cbn; [done|].
  apply Z.eqb_neq in Eb. destruct H as [H|H]; [done|].
  by apply (xbee_payload_humid_abort (Build_state _ (Build_uart _ _ _ _ _) _ _ _ _ _ _ _ _ _ _ _ _ _ _ _ _ _)).
Qed.

Lemma xbee_abort_kept st :
  xbee_aborts (xbee_rx (line st)) -> eeprom (xbee_exchange st) = eeprom st /\ temp_sen (xbee_exchange st) = temp_sen st /\
  humid_sen (xbee_exchange st) = humid_sen st.
Proof.
  unfold xbee_aborts. cbn [rx_byte]. intros H. open_state st.
  destruct (timed_read xrx) as [b r] eqn:E. cbn in H.
  stage xbee_exchange. rewrite E. cbn.
  destruct (b =? 227) eqn:Eb; cbn; [|done].
  apply Z.eqb_eq in Eb. destruct H as [H|H]; [done|].
  by apply (xbee_payload_temp_abort (Build_state _ (Build_uart _ _ _ _ _) _ _ _ _ _ _ _ _ _ _ _ _ _ _ _ _ _)).
Qed.

(** C3.  An exchange with either peer that aborts, because a header byte
    does not match or a read returns the 0xFF sentinel, leaves the whole
    EEPROM (the settings slots in particular) and the two sensed readings
    exactly as they were. *)
Theorem aborted_exchange_keeps_settings_and_readings (p : peer) (st : state) :
  aborts p st ->
  eeprom (exchange p st) = eeprom st /\
  temp_sen (exchange p st) = temp_sen st /\
  humid_sen (exchange p st) = humid_sen st.
Proof.
  destruct p; [apply imp_abort_kept | apply xbee_abort_kept].
Qed.

Lemma aborted_exchange_keeps_settings_and_readings_witness :
  (aborts Imp st_imp_two_bytes /\ kept st_imp_two_bytes (imp_exchange st_imp_two_bytes)) /\
  (aborts Xbee st_xbee_sentinel /\ kept st_xbee_sentinel (xbee_exchange st_xbee_sentinel)).
Proof.
  assert (Hi : aborts Imp st_imp_two_bytes) by (do 4 right; reflexivity).
  assert (Hx : aborts Xbee st_xbee_sentinel) by (do 2 right; reflexivity).
  split; (split; [assumption|]).
  - exact (aborted_exchange_keeps_settings_and_readings Imp st_imp_two_bytes Hi).
  - exact (aborted_exchange_keeps_settings_and_readings Xbee st_xbee_sentinel Hx).
Defined.

(** C4.  In an accepted set command the bytes written to the transmit
    register while the Xbee is selected are the received payload bytes, in
    order: all three when the three transmit waits succeed, and in general
    those whose wait succeeded. *)
Theorem imp_set_command_forwarded_verbatim
    (st : state) (f t h : Z) (rx : list (option Z)) :
  imp_rx (line st) = Some 0xA9 :: Some 0x65 :: Some f :: Some t :: Some h :: rx ->
  payload_byte f -> payload_byte t -> payload_byte h ->
  Z.land t 0x80 = 0 ->
  xbee_tx (line (imp_exchange st))
    = xbee_tx (line st) ++ transmitted (udre (line st)) [f; t; h] /\
  (forall u, udre (line st) = true :: true :: true :: u ->
     xbee_tx (line (imp_exchange st)) = xbee_tx (line st) ++ [f; t; h]).
Proof.
  intros Hrx Hf Ht Hh Htop.
  assert (E : xbee_tx (line (imp_exchange st))
              = xbee_tx (line st) ++ transmitted (udre (line st)) [f; t; h]).
  { rewrite (imp_exchange_complete _ _ _ _ _ Hrx Hf Ht Hh).
    unfold imp_dispatch.
    replace (temp_char _) with t by (by open_state st).
    unfold nz. rewrite Htop. cbn [Z.eqb negb].
    rewrite imp_set_command_eq. open_state st. unfold var_config. cbn.
    unfold constant. destruct Hf, Ht, Hh. by rewrite !u8_small by lia. }
  split; [exact E|].
  intros u Hu. rewrite E, Hu. reflexivity.
Qed.

Lemma imp_set_command_forwarded_verbatim_witness :
  xbee_tx (line (imp_exchange st_set_command))
    = xbee_tx (line st_set_command) ++ [0x02; 0x4B; 0x28].
Proof.
  refine (proj2 (imp_set_command_forwarded_verbatim
                   st_set_command 0x02 0x4B 0x28 [] _ _ _ _ _)
                (repeat true 13) _);
    first [reflexivity | split; [lia | discriminate]].
Defined.

(** ** Set commands and the temperature digits *)

Lemma read_slots_set_command st f t h rx :
  imp_rx (line st) = Some 0xA9 :: Some 0x65 :: Some f :: Some t :: Some h :: rx ->
  payload_byte f -> payload_byte t -> payload_byte h ->
  Z.land t 0x80 = 0 ->
  read_slots (eeprom (imp_exchange st)) = decoded_slots f t h.
Proof.
  intros Hrx Hf Ht Hh Htop. rewrite (imp_exchange_complete _ _ _ _ _ Hrx Hf Ht Hh).
  unfold imp_dispatch.
  replace (temp_char _) with t by (by open_state st).
  unfold nz. rewrite Htop. cbn [Z.eqb negb].
  apply read_slots_imp_set_command; try done; by open_state st.
Qed.

Lemma tempr_slot_set_command st f t h rx :
  imp_rx (line st) = Some 0xA9 :: Some 0x65 :: Some f :: Some t :: Some h :: rx ->
  payload_byte f -> payload_byte t -> payload_byte h ->
  Z.land t 0x80 = 0 ->
  eeprom_read_byte (eeprom (imp_exchange st)) TEMPR_0
    = Z.lor (u8 (Z.shiftl (t / 10) 4)) (t mod 10).
Proof.
  intros Hrx Hf Ht Hh Htop.
  pose proof (read_slots_set_command st f t h rx Hrx Hf Ht Hh Htop) as H.
  unfold read_slots, settings_slots, decoded_slots in H. cbn [map] in H.
  by injection H.
Qed.

(** C7, counterexample.  The set command 0xA9 0x65 0x02 0x64 0x28 is
    accepted (no byte is 0xFF, the top bit of the temperature byte 100 is
    clear), and [var_config] persists 0xA0 in the temperature slot: the high
    digit is 10. *)
Lemma set_command_100_persists_digit_ten :
  ~ set_command_persists_decimal_digits.
Proof.
  intros H.
  assert (Hp : forall b, 0 <= b < 255 -> payload_byte b)
    by (intros b Hb; split; lia).
  specialize (H st_set_command_100 0x02 100 0x28 [] eq_refl
                (Hp 0x02 ltac:(lia)) (Hp 100 ltac:(lia)) (Hp 0x28 ltac:(lia)) eq_refl).
  cbv zeta in H. destruct H as [H _].
  rewrite (tempr_slot_set_command st_set_command_100 0x02 100 0x28 []) in H;
    first [reflexivity | apply Hp; lia | idtac].
  vm_compute in H. by apply H.
Qed.

(** C7, amended.  For an accepted set command whose temperature byte is at
    most 99 (its top bit is then clear), both digits that [var_config]
    persists in the temperature slot are in [0,9], and the next
    [packet_config] signals no corruption fault. *)
Theorem set_command_up_to_99_persists_decimal_digits
    (st : state) (f t h : Z) (rx : list (option Z)) :
  imp_rx (line st) = Some 0xA9 :: Some 0x65 :: Some f :: Some t :: Some h :: rx ->
  payload_byte f -> payload_byte t -> payload_byte h ->
  t <= 99 ->
  let st' := imp_exchange st in
  let d := eeprom_read_byte (eeprom st') TEMPR_0 in
  bcd_high d <= 9 /\ bcd_low d <= 9 /\
  faults (packet_config st') = faults st'.
Proof.
  intros Hrx Hf Ht Hh Hle st' d.
  assert (Ht99 : 0 <= t <= 99) by (destruct Ht; lia).
  assert (Htop : Z.land t 0x80 = 0) by (by_bytes t Ht99).
  assert (Hd : d = Z.lor (u8 (Z.shiftl (t / 10) 4)) (t mod 10))
    by (by apply (tempr_slot_set_command st f t h rx)).
  assert (Hhigh : bcd_high d <= 9)
    by (rewrite Hd; apply Z.leb_le; by_bytes t Ht99).
  assert (Hlow : bcd_low d <= 9)
    by (rewrite Hd; apply Z.leb_le; by_bytes t Ht99).
  split; [done|]. split; [done|].
  rewrite packet_config_faults. cbv zeta. fold d.
  apply Z.ltb_ge in Hhigh, Hlow. by rewrite Hhigh, Hlow.
Qed.

Lemma set_command_up_to_99_persists_decimal_digits_witness :
  let st' := imp_exchange st_set_command in
  let d := eeprom_read_byte (eeprom st') TEMPR_0 in
  bcd_high d <= 9 /\ bcd_low d <= 9 /\
  faults (packet_config st') = faults st'.
Proof.
  refine (set_command_up_to_99_persists_decimal_digits
            st_set_command 0x02 0x4B 0x28 [] _ _ _ _ _);
    first [reflexivity | split; [lia | discriminate] | lia].
Defined.

(** ** A partial Imp payload and the Xbee acknowledgement *)

Arguments usart_out_xbee : simpl never.
Arguments usart_out_imp : simpl never.

(** The state an exchange with the Imp leaves when it aborts in one of the
    last two payload reads. *)
Lemma imp_payload_humid_abort_state st :
  rx_byte (imp_rx (line st)) 0 = 0xFF ->
  let st' := imp_payload_humid st in
  xbee_rx (line st') = xbee_rx (line st) /\ udre (line st') = udre (line st) /\
  xbee_tx (line st') = xbee_tx (line st) /\
  io_char st' = io_char st /\ temp_char st' = temp_char st.
Proof.
  cbn [rx_byte]. intros H. open_state st.
  destruct (timed_read irx) as [b r] eqn:E. cbn in H. subst b.
  stage imp_payload_humid. by rewrite E.
Qed.

Lemma imp_payload_temp_abort_state st :
  rx_byte (imp_rx (line st)) 0 = 0xFF \/ rx_byte (imp_rx (line st)) 1 = 0xFF ->
  let st' := imp_payload_temp st in
  xbee_rx (line st') = xbee_rx (line st) /\ udre (line st') = udre (line st) /\
  xbee_tx (line st') = xbee_tx (line st) /\
  io_char st' = io_char st /\
  temp_char st' = (if rx_byte (imp_rx (line st)) 0 =? 0xFF
                   then temp_char st else rx_byte (imp_rx (line st)) 0).
Proof.
  cbn [rx_byte]. intros H. open_state st.
  destruct (timed_read irx) as [b r] eqn:E. cbn in H.
  stage imp_payload_temp. rewrite E. cbn.
  destruct (b =? 255) eqn:Eb; cbn; [done|].
  apply Z.eqb_neq in Eb. destruct H as [H|H]; [done|].
  by apply (imp_payload_humid_abort_state
              (Build_state _ (Build_uart _ _ _ _ _) _ _ _ _ _ _ _ _ _ _ _ _ _ _ _ _ _)).
Qed.

Lemma imp_exchange_partial st f rest :
  imp_rx (line st) = Some 0xA9 :: Some 0x65 :: Some f :: rest ->
  payload_byte f ->
  rx_byte rest 0 = 0xFF \/ rx_byte rest 1 = 0xFF ->
  let st' := imp_exchange st in
  xbee_rx (line st') = xbee_rx (line st) /\ udre (line st') = udre (line st) /\
  xbee_tx (line st') = xbee_tx (line st) /\
  io_char st' = f /\
  temp_char st' = (if rx_byte rest 0 =? 0xFF then temp_char st else rx_byte rest 0).
Proof.
  intros Hrx [Hf Hf'] Hab. apply Z.eqb_neq in Hf'.
  open_state st. subst.
  stage imp_exchange. stage imp_header_1.
  stage imp_payload_flags. rewrite Hf'. cbn.
  by apply (imp_payload_temp_abort_state
              (Build_state _ (Build_uart _ _ _ _ _) _ _ _ _ _ _ _ _ _ _ _ _ _ _ _ _ _)).
Qed.

Lemma transmitted_cons2 u a b bs :
  transmitted u (a :: b :: bs) =
  transmitted u [a] ++ transmitted (snd (timed_wait u)) (b :: bs).
Proof. apply transmitted_cons. Qed.

Lemma xbee_ack_eq st :
  xbee_ack st =
  st <| humid_sen := Z.land (humid_char st) 0x7F |>
     <| temp_sen := Z.land (temp_char st) 0x7F |>
     <| line := (line st)
          <| udre := snd (timed_wait (snd (timed_wait (snd (timed_wait
                       (snd (timed_wait (udre (line st))))))))) |>
          <| xbee_tx := xbee_tx (line st)
               ++ transmitted (udre (line st))
                    [0xD4; u8 (io_char st); u8 (temp_char st); u8 (humid_char st)] |> |>.
Proof.
  open_state st. unfold xbee_ack. cbn. unfold constant.
  do 4 (rewrite usart_out_xbee_eq; cbn; unfold constant).
  by rewrite !transmitted_cons2, <- !app_assoc.
Qed.

(** A completed exchange with the Xbee. *)
Lemma xbee_exchange_complete st x0 x1 xrest :
  xbee_rx (line st) = Some 0xE3 :: Some x0 :: Some x1 :: xrest ->
  payload_byte x0 -> payload_byte x1 ->
  xbee_exchange st =
  xbee_ack (st <| line := (line st) <| xbee_rx := xrest |> |>
               <| tempDataByte := x1 |> <| temp_char := x0 |>
               <| humid_char := x1 |>).
Proof.
  intros Hrx [H0 H0'] [H1 H1']. apply Z.eqb_neq in H0', H1'.
  open_state st. subst.
  stage xbee_exchange. stage xbee_payload_temp. rewrite H0'. cbn.
  stage xbee_payload_humid. rewrite H1'. cbn.
  reflexivity.
Qed.

(** C10, counterexample.  The Imp delivers the header and the payload bytes
    0x12 0x34 and then times out; the Xbee delivers 0xE3 0x20 0x30.  The
    local flags byte is 0x12 and the local temperature byte 0x34 after the
    aborted exchange, but the acknowledgement sent to the Xbee is
    0xD4 0x12 0x20 0x30: the temperature byte received from the Imp is not
    in it. *)
Lemma partial_temperature_byte_not_in_ack :
  let st1 := imp_exchange st_partial_then_sensor in
  let st2 := xbee_exchange st1 in
  aborts Imp st_partial_then_sensor /\
  io_char st1 = 0x12 /\ temp_char st1 = 0x34 /\
  xbee_tx (line st2) = [0xD4; 0x12; 0x20; 0x30] /\
  0x34 ∉ xbee_tx (line st2).
Proof.
  cbv zeta.
  assert (E : xbee_tx (line (xbee_exchange (imp_exchange st_partial_then_sensor)))
              = [0xD4; 0x12; 0x20; 0x30]) by (by vm_compute).
  split; [do 4 right; reflexivity|].
  split; [by vm_compute|]. split; [by vm_compute|]. split; [exact E|].
  rewrite E. intros Hin. repeat (apply elem_of_cons in Hin as [Hin|Hin]; [discriminate|]).
  by apply elem_of_nil in Hin.
Qed.

(** C10, amended.  When the Imp exchange matches both header bytes, reads
    the flags byte and then aborts in one of the next two reads, the local
    flags byte holds the received flags byte (and the local temperature byte
    the second payload byte, when one was read).  A completed Xbee exchange
    in the same pass then sends 0xD4, that flags byte and the two raw sensor
    bytes it has just received: of the partial Imp payload only the flags
    byte reaches the Xbee channel. *)
Theorem partial_imp_flags_byte_in_xbee_ack
    (st : state) (f x0 x1 : Z) (rest xrest : list (option Z)) :
  imp_rx (line st) = Some 0xA9 :: Some 0x65 :: Some f :: rest ->
  payload_byte f ->
  rx_byte rest 0 = 0xFF \/ rx_byte rest 1 = 0xFF ->
  xbee_rx (line st) = Some 0xE3 :: Some x0 :: Some x1 :: xrest ->
  payload_byte x0 -> payload_byte x1 ->
  let st1 := imp_exchange st in
  let st2 := xbee_exchange st1 in
  io_char st1 = f /\
  temp_char st1 = (if rx_byte rest 0 =? 0xFF then temp_char st else rx_byte rest 0) /\
  xbee_tx (line st2)
    = xbee_tx (line st) ++ transmitted (udre (line st)) [0xD4; f; x0; x1].
Proof.
  intros Hrx Hf Hab Hxrx Hx0 Hx1 st1 st2.
  destruct (imp_exchange_partial st f rest Hrx Hf Hab)
    as (Exrx & Eudre & Extx & Eio & Etemp).
  fold st1 in Exrx, Eudre, Extx, Eio, Etemp.
  split; [done|]. split; [done|].
  unfold st2. rewrite Hxrx in Exrx.
  rewrite (xbee_exchange_complete st1 x0 x1 xrest Exrx Hx0 Hx1), xbee_ack_eq.
  clearbody st1. clear st2.
  destruct Hf as [Hf _], Hx0 as [Hx0 _], Hx1 as [Hx1 _].
  open_state st1. unfold constant. subst.
  by rewrite !u8_small by lia.
Qed.

Lemma partial_imp_flags_byte_in_xbee_ack_witness :
  let st1 := imp_exchange st_partial_then_sensor in
  let st2 := xbee_exchange st1 in
  io_char st1 = 0x12 /\
  temp_char st1 = 0x34 /\
  xbee_tx (line st2) = [0xD4; 0x12; 0x20; 0x30].
Proof.
  refine (partial_imp_flags_byte_in_xbee_ack
            st_partial_then_sensor 0x12 0x20 0x30 [Some 0x34; None] [] _ _ _ _ _ _);
    first [reflexivity | split; [lia | discriminate] | right; reflexivity].
Defined.

(** ** Editing the temperature target *)

Arguments tempr_increment : simpl never.
Arguments tempr_decrement : simpl never.
Arguments humid_increment : simpl never.
Arguments humid_decrement : simpl never.

(** The temperature byte after one pass in the value-editing phase. *)
Lemma tempr_config_value st b d0 d1 :
  editing st = 2 ->
  (tempr_config b d0 d1 st).1.1 =
  if btn_2 b then
    let r := tempr_increment (bcd_high d0, bcd_low d0) in
    u8 (Z.lor (u8 (Z.lor 0 (Z.shiftl r.1 4))) r.2)
  else if btn_3 b then
    let r := tempr_decrement (bcd_high d0, bcd_low d0) in
    u8 (Z.lor (u8 (Z.lor 0 (Z.shiftl r.1 4))) r.2)
  else d0.
Proof.
  intros He. open_state st. subst.
  unfold tempr_config, btn_db_val, bcd_high, bcd_low.
  destruct (btn_2 b); cbn.
  - by destruct (tempr_increment _).
  - destruct (btn_3 b); cbn; [|done]. by destruct (tempr_decrement _).
Qed.

Lemma editing_tempr_config st b d0 d1 :
  editing (tempr_config b d0 d1 st).2 = editing st.
Proof.
  unfold tempr_config. open_state st.
  destruct (nz edt); [|done]. destruct (nz _); [|done].
  cbn. by repeat case_match.
Qed.

Lemma tempr_after_range b t : 60 <= t <= 90 -> 60 <= tempr_after b t <= 90.
Proof.
  unfold tempr_after. intros H.
  destruct (btn_2 b); [|destruct (btn_3 b)]; [| |done];
    destruct (Z.eqb_spec t 90); destruct (Z.eqb_spec t 60); lia.
Qed.

Lemma tempr_config_step st b t d1 :
  editing st = 2 -> 60 <= t <= 90 ->
  (tempr_config b (bcd t) d1 st).1.1 = bcd (tempr_after b t).
Proof.
  intros He Ht. rewrite (tempr_config_value _ _ _ _ He). unfold tempr_after.
  destruct (btn_2 b); [|destruct (btn_3 b)]; [| |done]; cbv zeta; by_bytes t Ht.
Qed.

Lemma tempr_edit_range bs : forall st t d1,
  editing st = 2 -> 60 <= t <= 90 ->
  exists t', (tempr_edit bs (bcd t) d1 st).1.1 = bcd t' /\ 60 <= t' <= 90.
Proof.
  induction bs as [|b bs IH]; intros st t d1 He Ht; cbn [tempr_edit].
  - by exists t.
  - pose proof (tempr_config_step st b t d1 He Ht) as Hstep.
    pose proof (editing_tempr_config st b (bcd t) d1) as He'.
    destruct (tempr_config b (bcd t) d1 st) as [[d0' d1'] st'].
    cbn in Hstep, He'. subst d0'.
    apply IH; [congruence | by apply tempr_after_range].
Qed.

(** C5.  In the value-editing phase of the temperature panel, starting from
    a target between 60 and 90, any sequence of button samples leaves a
    target between 60 and 90, stored with decimal digits; incrementing at 90
    gives 60 and decrementing at 60 gives 90. *)
Theorem tempr_target_stays_in_60_90_and_wraps
    (st : state) (t d1 : Z) (bs : list buttons) :
  editing st = 2 -> 60 <= t <= 90 ->
  (exists t', (tempr_edit bs (bcd t) d1 st).1.1 = bcd t' /\ 60 <= t' <= 90) /\
  (tempr_config press_2 (bcd 90) d1 st).1.1 = bcd 60 /\
  (tempr_config press_3 (bcd 60) d1 st).1.1 = bcd 90.
Proof.
  intros He Ht. split; [by apply tempr_edit_range|].
  split.
  - by rewrite (tempr_config_step st press_2 90 d1 He).
  - by rewrite (tempr_config_step st press_3 60 d1 He).
Qed.

Lemma tempr_target_stays_in_60_90_and_wraps_witness :
  (exists t', (tempr_edit [press_2; press_2; press_3] (bcd 89) 0 st_edit_value).1.1
              = bcd t' /\ 60 <= t' <= 90) /\
  (tempr_config press_2 (bcd 90) 0 st_edit_value).1.1 = bcd 60 /\
  (tempr_config press_3 (bcd 60) 0 st_edit_value).1.1 = bcd 90.
Proof.
  refine (tempr_target_stays_in_60_90_and_wraps
            st_edit_value 89 0 [press_2; press_2; press_3] _ _);
    [reflexivity | lia].
Defined.

(** ** Editing the humidity target *)

Lemma humid_config_value st b d0 d1 :
  editing st = 2 ->
  (humid_config b d0 d1 st).1.1 =
  if btn_2 b then
    let r := humid_increment (bcd_high d0, bcd_low d0) in
    u8 (Z.lor (u8 (Z.lor 0 (Z.shiftl r.1 4))) r.2)
  else if btn_3 b then
    let r := humid_decrement (bcd_high d0, bcd_low d0) in
    u8 (Z.lor (u8 (Z.lor 0 (Z.shiftl r.1 4))) r.2)
  else d0.
Proof.
  intros He. open_state st. subst.
  unfold humid_config, btn_db_val, bcd_high, bcd_low.
  destruct (btn_2 b); cbn.
  - by destruct (humid_increment _).
  - destruct (btn_3 b); cbn; [|done]. by destruct (humid_decrement _).
Qed.

(** The digits of the byte a press leaves, checked over all bytes with
    decimal digits. *)
Lemma humid_digits_checked d :
  0 <= d <= 255 ->
  (9 <? bcd_high d) || (9 <? bcd_low d) ||
  (let up := humid_increment (bcd_high d, bcd_low d) in
   let down := humid_decrement (bcd_high d, bcd_low d) in
   let d_up := u8 (Z.lor (u8 (Z.lor 0 (Z.shiftl up.1 4))) up.2) in
   let d_down := u8 (Z.lor (u8 (Z.lor 0 (Z.shiftl down.1 4))) down.2) in
   let r_up := humid_step_up (bcd_high d) (bcd_low d) in
   let r_down := humid_step_down (bcd_high d) (bcd_low d) in
   (bcd_high d_up =? r_up.1) && (bcd_low d_up =? r_up.2) &&
   (bcd_high d_down =? r_down.1) && (bcd_low d_down =? r_down.2)) = true.
Proof. intros H. by_bytes d H. Qed.

(** C6.  In the value-editing phase of the humidity panel, on a byte with
    decimal digits, an increment leaves the digits given by the step-up rule
    and a decrement those given by the step-down rule; from 95 an increment
    gives 0 and from 0 a decrement gives 95. *)
Theorem humid_step_by_5_with_carry_borrow_wrap (st : state) (d d1 : Z) :
  editing st = 2 ->
  0 <= d <= 255 -> bcd_high d <= 9 -> bcd_low d <= 9 ->
  let d_up := (humid_config press_2 d d1 st).1.1 in
  let d_down := (humid_config press_3 d d1 st).1.1 in
  (bcd_high d_up, bcd_low d_up) = humid_step_up (bcd_high d) (bcd_low d) /\
  (bcd_high d_down, bcd_low d_down) = humid_step_down (bcd_high d) (bcd_low d) /\
  (humid_config press_2 (bcd 95) d1 st).1.1 = bcd 0 /\
  (humid_config press_3 (bcd 0) d1 st).1.1 = bcd 95.
Proof.
  intros He Hd Hh Hl d_up d_down. subst d_up d_down.
  rewrite !(humid_config_value _ _ _ _ He). cbn [btn_2 btn_3 press_2 press_3].
  pose proof (humid_digits_checked d Hd) as H.
  apply Z.ltb_ge in Hh, Hl. rewrite Hh, Hl in H. cbn [orb] in H. cbv zeta in H.
  repeat (apply andb_true_iff in H as [H ?]).
  repeat match goal with E : (_ =? _) = true |- _ => apply Z.eqb_eq in E end.
  cbv zeta.
  split; [|split; [|split]].
  - destruct (humid_step_up _ _) as [a b]. cbn in *. congruence.
  - destruct (humid_step_down _ _) as [a b]. cbn in *. congruence.
  - by vm_compute.
  - by vm_compute.
Qed.

Lemma humid_step_by_5_with_carry_borrow_wrap_witness :
  let d_up := (humid_config press_2 0x47 0 st_edit_value).1.1 in
  let d_down := (humid_config press_3 0x47 0 st_edit_value).1.1 in
  (bcd_high d_up, bcd_low d_up) = humid_step_up 4 7 /\
  (bcd_high d_down, bcd_low d_down) = humid_step_down 4 7 /\
  (humid_config press_2 (bcd 95) 0 st_edit_value).1.1 = bcd 0 /\
  (humid_config press_3 (bcd 0) 0 st_edit_value).1.1 = bcd 95.
Proof.
  refine (humid_step_by_5_with_carry_borrow_wrap st_edit_value 0x47 0 _ _ _ _);
    first [reflexivity | lia | by vm_compute].
Defined.

(** ** The main loop and the changed flag *)

Arguments clk : simpl never.
Arguments commit : simpl never.
Arguments outer_head : simpl never.
Arguments btn_db_mod : simpl never.
Arguments panel_config : simpl never.
Arguments loop_rest : simpl never.
Arguments loop_body : simpl never.

Lemma same_ui_refl st : same_ui st st.
Proof. by repeat split. Qed.

Lemma same_ui_trans st1 st2 st3 :
  same_ui st1 st2 -> same_ui st2 st3 -> same_ui st1 st3.
Proof. unfold same_ui. intros H1 H2. destruct_and!. repeat split; congruence. Qed.

Lemma same_ui_read_imp st : same_ui st (read_imp st).
Proof. rewrite read_imp_eq. by open_state st. Qed.

Lemma same_ui_read_xbee st : same_ui st (read_xbee st).
Proof. rewrite read_xbee_eq. by open_state st. Qed.

Lemma same_ui_usart_out_xbee ch st : same_ui st (usart_out_xbee ch st).
Proof. rewrite usart_out_xbee_eq. by open_state st. Qed.

Lemma same_ui_usart_out_imp ch st : same_ui st (usart_out_imp ch st).
Proof. rewrite usart_out_imp_eq. by open_state st. Qed.

Lemma same_ui_packet_config st : same_ui st (packet_config st).
Proof. open_state st. unfold packet_config. cbn. by destruct (_ || _). Qed.

Lemma same_ui_var_config st : same_ui st (var_config st).
Proof. by open_state st. Qed.

Lemma same_ui_io_char v st : same_ui st (st <| io_char := v |>).
Proof. by open_state st. Qed.

Lemma same_ui_temp_char v st : same_ui st (st <| temp_char := v |>).
Proof. by open_state st. Qed.

Lemma same_ui_humid_char v st : same_ui st (st <| humid_char := v |>).
Proof. by open_state st. Qed.

Lemma same_ui_eeprom e st : same_ui st (st <| eeprom := e |>).
Proof. by open_state st. Qed.

Lemma same_ui_temp_sen v st : same_ui st (st <| temp_sen := v |>).
Proof. by open_state st. Qed.

Lemma same_ui_humid_sen v st : same_ui st (st <| humid_sen := v |>).
Proof. by open_state st. Qed.

Create HintDb same_ui discriminated.
#[local] Hint Resolve same_ui_refl same_ui_read_imp same_ui_read_xbee
  same_ui_usart_out_xbee same_ui_usart_out_imp same_ui_packet_config
  same_ui_var_config same_ui_io_char same_ui_temp_char same_ui_humid_char
  same_ui_eeprom same_ui_temp_sen same_ui_humid_sen : same_ui.

(** Chaining the steps of a block. *)
Ltac same_ui_steps :=
  repeat first
    [ by eauto with same_ui
    | eapply same_ui_trans; [| by eauto with same_ui ] ].

Lemma same_ui_imp_status_reply st : same_ui st (imp_status_reply st).
Proof. unfold imp_status_reply. cbv zeta. same_ui_steps. Qed.

Lemma same_ui_imp_set_command st : same_ui st (imp_set_command st).
Proof. unfold imp_set_command. cbv zeta. same_ui_steps. Qed.

Lemma same_ui_imp_dispatch st : same_ui st (imp_dispatch st).
Proof.
  unfold imp_dispatch.
  destruct (nz _); [apply same_ui_imp_status_reply | apply same_ui_imp_set_command].
Qed.

#[local] Hint Resolve same_ui_imp_dispatch : same_ui.

Lemma same_ui_imp_payload_humid st : same_ui st (imp_payload_humid st).
Proof. unfold imp_payload_humid. cbv zeta. destruct (negb _); same_ui_steps. Qed.

#[local] Hint Resolve same_ui_imp_payload_humid : same_ui.

Lemma same_ui_imp_payload_temp st : same_ui st (imp_payload_temp st).
Proof. unfold imp_payload_temp. cbv zeta. destruct (negb _); same_ui_steps. Qed.

#[local] Hint Resolve same_ui_imp_payload_temp : same_ui.

Lemma same_ui_imp_payload_flags st : same_ui st (imp_payload_flags st).
Proof. unfold imp_payload_flags. cbv zeta. destruct (negb _); same_ui_steps. Qed.

#[local] Hint Resolve same_ui_imp_payload_flags : same_ui.

Lemma same_ui_imp_header_1 st : same_ui st (imp_header_1 st).
Proof. unfold imp_header_1. cbv zeta. destruct (_ =? _); same_ui_steps. Qed.

#[local] Hint Resolve same_ui_imp_header_1 : same_ui.

(** The exchange with the Imp never touches the user-interface variables. *)
Lemma same_ui_imp_exchange st : same_ui st (imp_exchange st).
Proof. unfold imp_exchange. cbv zeta. destruct (_ =? _); same_ui_steps. Qed.

Lemma same_ui_xbee_ack st : same_ui st (xbee_ack st).
Proof. unfold xbee_ack. cbv zeta. same_ui_steps. Qed.

#[local] Hint Resolve same_ui_xbee_ack : same_ui.

Lemma same_ui_xbee_payload_humid st : same_ui st (xbee_payload_humid st).
Proof. unfold xbee_payload_humid. cbv zeta. destruct (negb _); same_ui_steps. Qed.

#[local] Hint Resolve same_ui_xbee_payload_humid : same_ui.

Lemma same_ui_xbee_payload_temp st : same_ui st (xbee_payload_temp st).
Proof. unfold xbee_payload_temp. cbv zeta. destruct (negb _); same_ui_steps. Qed.

#[local] Hint Resolve same_ui_xbee_payload_temp : same_ui.

(** Neither does the exchange with the Xbee. *)
Lemma same_ui_xbee_exchange st : same_ui st (xbee_exchange st).
Proof. unfold xbee_exchange. cbv zeta. destruct (_ =? _); same_ui_steps. Qed.

#[local] Hint Resolve same_ui_imp_exchange same_ui_xbee_exchange : same_ui.

Lemma changed_btn_db_mod b st : changed (btn_db_mod b st) = changed st.
Proof.
  open_state st. unfold btn_db_mod. cbn.
  by repeat (case_match; cbn).
Qed.

Lemma changed_commit st : changed (commit st) = changed st.
Proof. by open_state st. Qed.

Lemma changed_outer_head st : changed (outer_head st) = changed st.
Proof. by open_state st. Qed.

(** The rest of a pass when the panel selection changed: the [break]. *)
Lemma loop_rest_break b st :
  current_loop st <> current st ->
  loop_rest b st = outer_head (st <| current_loop := current st |>).
Proof.
  intros Hc. unfold loop_rest. apply Z.eqb_neq in Hc. by rewrite Hc.
Qed.

Lemma read_commit st :
  eeprom_read_byte (eeprom (commit st)) (addr st) = u8 (local_data_0 st) /\
  eeprom_read_byte (eeprom (commit st)) (addr st + 1) = u8 (local_data_1 st).
Proof.
  open_state st. unfold commit. cbn. unfold constant. split.
  - rewrite eeprom_read_update_ne by lia. apply eeprom_read_update_eq.
  - apply eeprom_read_update_eq.
Qed.

(** C9, counterexample.  On the temperature panel the user enters the value
    phase, increments the target to 76 and returns to Idle; in that pass the
    commit stores 0x76 and the Imp then sets 80 F.  After the pass the
    changed flag is still 1, and the next pass, with no button pressed,
    commits again: the temperature slot goes from 0x80 back to 0x76. *)
Lemma changed_flag_stays_set_and_commit_rewrites :
  editing st_after_edit = 0 /\
  changed st_after_edit = 1 /\
  eeprom_read_byte (eeprom st_after_edit) TEMPR_0 = 0x80 /\
  changed (loop_body no_press st_after_edit) = 1 /\
  eeprom_read_byte (eeprom (loop_body no_press st_after_edit)) TEMPR_0 = 0x76.
Proof. repeat split; by vm_compute. Qed.

(** C9, amended.  In a pass that starts with the changed flag set and in
    which the edit phase is Idle once the buttons are read, the commit runs,
    whether the phase returned to Idle in this pass or was Idle before: the
    two slots of the panel are updated with main's local copy and the rest
    of the pass runs on the updated store.  The commit does not clear the
    flag: it is still set when the commit is done, and when the pass then
    leaves the inner loop because the panel selection changed, it is still
    set at the end of the pass. *)
Theorem commit_every_idle_pass_leaves_changed_flag_set
    (b : buttons) (st : state) :
  changed st <> 0 ->
  let st1 := btn_db_mod b st in
  editing st1 = 0 ->
  loop_body b st = loop_rest b (commit st1) /\
  eeprom_read_byte (eeprom (commit st1)) (addr st1) = u8 (local_data_0 st1) /\
  eeprom_read_byte (eeprom (commit st1)) (addr st1 + 1) = u8 (local_data_1 st1) /\
  changed (commit st1) = changed st /\
  (current_loop st1 <> current st1 -> changed (loop_body b st) = changed st).
Proof.
  intros Hc st1 He.
  assert (Hl : loop_body b st = loop_rest b (commit st1)).
  { unfold loop_body. cbv zeta. fold st1. rewrite He.
    unfold st1 at 1. rewrite changed_btn_db_mod.
    apply Z.eqb_neq in Hc. unfold nz. by rewrite Hc. }
  assert (Hk : changed (commit st1) = changed st)
    by (unfold st1; by rewrite changed_commit, changed_btn_db_mod).
  split; [exact Hl|]. destruct (read_commit st1) as [R0 R1].
  split; [exact R0|]. split; [exact R1|]. split; [exact Hk|].
  intros Hne. rewrite Hl, loop_rest_break.
  - rewrite changed_outer_head, <- Hk. generalize (commit st1) as s. intros s.
    by open_state s.
  - generalize dependent st1. intros st1 _ _ _ _ _ Hne. by open_state st1.
Qed.

Lemma commit_every_idle_pass_leaves_changed_flag_set_witness :
  let st := run [press_1; press_1; press_2] st_before_edit in
  let st1 := btn_db_mod press_1 st in
  loop_body press_1 st = loop_rest press_1 (commit st1) /\
  eeprom_read_byte (eeprom (commit st1)) (addr st1) = u8 (local_data_0 st1) /\
  eeprom_read_byte (eeprom (commit st1)) (addr st1 + 1) = u8 (local_data_1 st1) /\
  changed (commit st1) = changed st /\
  (current_loop st1 <> current st1 -> changed (loop_body press_1 st) = changed st).
Proof.
  refine (commit_every_idle_pass_leaves_changed_flag_set
            press_1 (run [press_1; press_1; press_2] st_before_edit) _ _);
    by vm_compute.
Defined.

(** * Further properties of the codec *)

(** The round trip of X1 at 68 F / Heat with the humidifier off. *)
Lemma roundtrip_with_humidifier_off_witness :
  decode (booted [] []) (encode (booted [] []) settings_heat) = settings_heat.
Proof.
  refine (decode_encode_humidifier_off (booted [] []) settings_heat _ _);
    [unfold valid_settings; cbn; lia | reflexivity].
Defined.

(** The failed round trip of X2 at 40 % with the humidifier on. *)
Lemma roundtrip_with_humidifier_on_witness :
  humidityTarget (decode (booted [] []) (encode (booted [] []) settings_humidifier_on))
    = ((128 + 40) / 10) mod 16 * 10 + (128 + 40) mod 10
  /\ decode (booted [] []) (encode (booted [] []) settings_humidifier_on)
     <> settings_humidifier_on.
Proof.
  refine (decode_encode_humidifier_on (booted [] []) settings_humidifier_on _ _);
    [unfold valid_settings; cbn; lia | reflexivity].
Defined.

(** X3.  For valid stored settings the three bytes [packet_config] stores
    follow the wire layout: one mode bit and the light bits in the flags
    byte, the target in the temperature byte, the enable bit and the target
    in the humidity byte. *)
Theorem packet_config_follows_wire_layout
    (st : state) (s : Settings) (e : gmap Z Z) :
  valid_settings s -> eeprom st = store_settings s e ->
  packet_of (eeprom (packet_config st)) = wire_packet s.
Proof.
  intros Hv He. rewrite <- (encode_wire (st <| eeprom := e |>) s Hv).
  unfold encode. f_equal. f_equal. f_equal.
  open_state st. by subst.
Qed.

Lemma packet_config_follows_wire_layout_witness :
  packet_of (eeprom (packet_config
               ((booted [] []) <| eeprom := store_settings settings_heat ∅ |>)))
    = (0x28, 68, 45).
Proof.
  refine (packet_config_follows_wire_layout
            ((booted [] []) <| eeprom := store_settings settings_heat ∅ |>)
            settings_heat ∅ _ _);
    [unfold valid_settings; cbn; lia | reflexivity].
Defined.

(** The flags and temperature bytes [packet_config] stores, from the two
    bytes they depend on. *)
Lemma packet_config_flags_byte st :
  eeprom_read_byte (eeprom (packet_config st)) PACKET0 =
  let mode := Z.shiftr (Z.land (eeprom_read_byte (eeprom st) TEMPR_1) 0xC0) 6 in
  let light := Z.shiftr (Z.land (eeprom_read_byte (eeprom st) LIGHT_0) 0xC0) 6 in
  u8 (u8 (Z.lor (u8 (Z.lor (u8 (Z.lor (u8 (Z.lor (u8 (Z.lor (u8 (Z.lor 0
        (Z.shiftl (Z.b2z (light =? 0)) 6)))
        (Z.shiftl (Z.b2z (light =? 2)) 5)))
        (Z.shiftl (Z.b2z (mode =? 3)) 4)))
        (Z.shiftl (Z.b2z (mode =? 2)) 3)))
        (Z.shiftl (Z.b2z (mode =? 1)) 2)))
        (Z.shiftl (Z.b2z (mode =? 0)) 1))).
Proof.
  open_state st. unfold packet_config. cbn.
  destruct (_ || _); cbn; unfold constant; by ee_read.
Qed.

Lemma packet_config_temperature_byte st :
  eeprom_read_byte (eeprom (packet_config st)) PACKET1 =
  let d := eeprom_read_byte (eeprom st) TEMPR_0 in
  u8 (u8 (Z.lor 0 (Z.land (u8 (Z.shiftr (Z.land d 0xF0) 4 * 10 + Z.land d 0x0F)) 0x7F))).
Proof.
  open_state st. unfold packet_config. cbn.
  destruct (_ || _); cbn; unfold constant; by ee_read.
Qed.

(** X4.  Whatever the EEPROM holds, the flags byte [packet_config] stores
    has exactly one of the four mode bits set, never both light bits, and
    bits 0 and 7 clear; the temperature byte it stores has its top bit
    clear, so a stored packet never reads as a status request. *)
Theorem packet_config_flags_one_mode_bit (st : state) :
  let f := eeprom_read_byte (eeprom (packet_config st)) PACKET0 in
  let t := eeprom_read_byte (eeprom (packet_config st)) PACKET1 in
  mode_bits_set f = 1 /\
  (Z.testbit f 6 && Z.testbit f 5 = false) /\
  Z.testbit f 0 = false /\ Z.testbit f 7 = false /\
  Z.land t 0x80 = 0.
Proof.
  cbv zeta. rewrite packet_config_flags_byte, packet_config_temperature_byte.
  cbv zeta.
  pose proof (eeprom_read_range (eeprom st) TEMPR_1) as H1.
  pose proof (eeprom_read_range (eeprom st) LIGHT_0) as H4.
  pose proof (eeprom_read_range (eeprom st) TEMPR_0) as H0.
  revert H0 H1 H4.
  generalize (eeprom_read_byte (eeprom st) TEMPR_0) as d0.
  generalize (eeprom_read_byte (eeprom st) TEMPR_1) as d1.
  generalize (eeprom_read_byte (eeprom st) LIGHT_0) as d4.
  intros d4 d1 d0 H0 H1 H4.
  assert (Hm : In (Z.shiftr (Z.land d1 0xC0) 6) [0; 1; 2; 3]).
  { assert (H : 0 <= d1 <= 255) by lia.
    assert (Hex : existsb (Z.eqb (Z.shiftr (Z.land d1 0xC0) 6)) [0;1;2;3] = true)
      by (by_bytes d1 H).
    apply existsb_exists in Hex as (x & Hx & Hy).
    apply Z.eqb_eq in Hy. by rewrite Hy. }
  assert (Hl : In (Z.shiftr (Z.land d4 0xC0) 6) [0; 1; 2; 3]).
  { assert (H : 0 <= d4 <= 255) by lia.
    assert (Hex : existsb (Z.eqb (Z.shiftr (Z.land d4 0xC0) 6)) [0;1;2;3] = true)
      by (by_bytes d4 H).
    apply existsb_exists in Hex as (x & Hx & Hy).
    apply Z.eqb_eq in Hy. by rewrite Hy. }
  revert Hm Hl.
  generalize (Z.shiftr (Z.land d1 0xC0) 6) as mode.
  generalize (Z.shiftr (Z.land d4 0xC0) 6) as light.
  intros light mode Hm Hl.
  assert (Ht : Z.land (u8 (u8 (Z.lor 0 (Z.land (u8 (Z.shiftr (Z.land d0 0xF0) 4 * 10
                 + Z.land d0 0x0F)) 0x7F)))) 0x80 = 0).
  { assert (H : 0 <= d0 <= 255) by lia. by_bytes d0 H. }
  cbn [In] in Hm, Hl. clear H0 H1 H4.
  split; [|split; [|split; [|split; [|exact Ht]]]]; clear Ht;
    destruct Hm as [<-|[<-|[<-|[<-|[]]]]], Hl as [<-|[<-|[<-|[<-|[]]]]];
    reflexivity.
Qed.

(** The slots [var_config] writes, from the three packet bytes it reads. *)
Lemma read_slots_var_config st :
  read_slots (eeprom (var_config st)) =
  let b0 := eeprom_read_byte (eeprom st) PACKET0 in
  let b1 := eeprom_read_byte (eeprom st) PACKET1 in
  let b2 := eeprom_read_byte (eeprom st) PACKET2 in
  [ u8 (Z.lor (u8 (Z.shiftl (b1 / 10) 4)) (u8 (b1 mod 10)));
    u8 (u8 (Z.shiftl (tempr_set_of b0) 6));
    u8 (Z.lor (u8 (Z.shiftl (b2 / 10) 4)) (u8 (b2 mod 10)));
    u8 (u8 (Z.land b2 0x80));
    u8 (u8 (Z.shiftl (light_set_of b0) 6)) ].
Proof.
  open_state st. unfold var_config, read_slots, settings_slots. cbn.
  unfold constant. by ee_read.
Qed.



Lemma eeprom_update_byte_same e a v :
  eeprom_read_byte e a = u8 v -> eeprom_update_byte a v e = e.
Proof. intros H. unfold eeprom_update_byte. by case_decide. Qed.

(** The packet bytes [packet_config] stores depend on the settings slots
    only. *)
Lemma packet_config_bytes_from_slots st st' :
  read_slots (eeprom st') = read_slots (eeprom st) ->
  exists b0 b1 b2,
    eeprom (packet_config st) =
      eeprom_update_byte PACKET2 b2
        (eeprom_update_byte PACKET1 b1 (eeprom_update_byte PACKET0 b0 (eeprom st))) /\
    eeprom (packet_config st') =
      eeprom_update_byte PACKET2 b2
        (eeprom_update_byte PACKET1 b1 (eeprom_update_byte PACKET0 b0 (eeprom st'))).
Proof.
  unfold read_slots, settings_slots. cbn [map]. intros H.
  injection H as H0 H1 H2 H3 H4.
  open_state st. open_state st'. unfold packet_config. cbn.
  rewrite H0, H1, H2, H3, H4.
  destruct (_ || _); cbn; unfold constant; eauto.
Qed.

(** X6.  A second [packet_config] in a row writes nothing to the EEPROM:
    the packet slots already hold the bytes it computes. *)
Theorem packet_config_twice_writes_nothing (st : state) :
  eeprom (packet_config (packet_config st)) = eeprom (packet_config st).
Proof.
  destruct (packet_config_bytes_from_slots st (packet_config st)
              (read_slots_packet_config st))
    as (b0 & b1 & b2 & E1 & E2).
  rewrite E2, E1.
  rewrite (eeprom_update_byte_same _ PACKET0) by (by ee_read).
  rewrite (eeprom_update_byte_same _ PACKET1) by (by ee_read).
  by rewrite (eeprom_update_byte_same _ PACKET2) by (by ee_read).
Qed.

(** X7.  An accepted set command whose temperature byte is between 100 and
    127 persists a high digit above 9, and the next [packet_config] calls
    [data_corruption] for [TEMPR_0]. *)
Theorem set_command_from_100_raises_corruption_fault
    (st : state) (f t h : Z) (rx : list (option Z)) :
  imp_rx (line st) = Some 0xA9 :: Some 0x65 :: Some f :: Some t :: Some h :: rx ->
  payload_byte f -> payload_byte t -> payload_byte h ->
  100 <= t <= 127 ->
  let st' := imp_exchange st in
  bcd_high (eeprom_read_byte (eeprom st') TEMPR_0) = t / 10 /\
  faults (packet_config st') = faults st' ++ [TEMPR_0].
Proof.
  intros Hrx Hf Ht Hh Hr st'.
  assert (Htop : Z.land t 0x80 = 0) by (by_bytes t Hr).
  assert (Hd : eeprom_read_byte (eeprom st') TEMPR_0
               = Z.lor (u8 (Z.shiftl (t / 10) 4)) (t mod 10))
    by (by apply (tempr_slot_set_command st f t h rx)).
  assert (Hhigh : bcd_high (Z.lor (u8 (Z.shiftl (t / 10) 4)) (t mod 10)) = t / 10)
    by (by_bytes t Hr).
  rewrite packet_config_faults. cbv zeta. rewrite Hd, Hhigh.
  split; [done|].
  assert (H10 : 10 <= t / 10) by (apply Z.div_le_lower_bound; lia).
  assert (H9 : (9 <? t / 10) = true) by (apply Z.ltb_lt; lia).
  by rewrite H9.
Qed.

Lemma set_command_from_100_raises_corruption_fault_witness :
  let st' := imp_exchange st_set_command_100 in
  bcd_high (eeprom_read_byte (eeprom st') TEMPR_0) = 100 / 10 /\
  faults (packet_config st') = faults st' ++ [TEMPR_0].
Proof.
  refine (set_command_from_100_raises_corruption_fault
            st_set_command_100 0x02 100 0x28 [] _ _ _ _ _);
    first [reflexivity | split; [lia | discriminate] | lia].
Defined.

Lemma eeprom_defaults_not_erased e :
  eeprom_read_byte e TEMPR_0 <> 0xFF -> eeprom_defaults e = e.
Proof.
  intros H. unfold eeprom_defaults.
  by destruct (Z.eqb_spec (eeprom_read_byte e TEMPR_0) 0xFF).
Qed.

Lemma eeprom_defaults_erased e :
  eeprom_read_byte e TEMPR_0 = 0xFF ->
  load_settings (eeprom_defaults e) = default_settings /\
  packet_of (eeprom_defaults e) = (0, 0, 0) /\
  eeprom_read_byte (eeprom_defaults e) TEMPR_0 = 117.
Proof.
  intros H. unfold eeprom_defaults, load_settings, packet_of. rewrite H.
  cbn [Z.eqb Pos.eqb]. ee_read. by vm_compute.
Qed.

(** X8.  Start-up on an EEPROM whose [TEMPR_0] reads as erased writes the
    defaults 75 F / Auto, 40 % with the humidifier off, lights on Auto, and
    zeroes the packet slots; an EEPROM whose [TEMPR_0] is not 0xFF is left
    as it is, so the defaults are never written twice. *)
Theorem eeprom_defaults_on_erased_only (e : gmap Z Z) :
  (if eeprom_read_byte e TEMPR_0 =? 0xFF
   then load_settings (eeprom_defaults e) = default_settings /\
        packet_of (eeprom_defaults e) = (0, 0, 0)
   else eeprom_defaults e = e) /\
  eeprom_defaults (eeprom_defaults e) = eeprom_defaults e.
Proof.
  destruct (Z.eqb_spec (eeprom_read_byte e TEMPR_0) 0xFF) as [H|H].
  - destruct (eeprom_defaults_erased e H) as (Hs & Hp & Ht).
    split; [done|]. apply eeprom_defaults_not_erased. by rewrite Ht.
  - split; [by apply eeprom_defaults_not_erased|].
    by rewrite !(eeprom_defaults_not_erased e H).
Qed.

(** * Further properties of the exchanges *)

(** One block of an exchange aborting: nothing is sent. *)
Ltac abort_block f rx next :=
  cbn [rx_byte]; intros H; unfold silent;
  match goal with st : state |- _ => open_state st end;
  destruct (timed_read rx) as [b r] eqn:E; cbn in H;
  stage f; rewrite E; cbn;
  first
    [ by subst b
    | destruct (b =? 255) eqn:Eb; cbn; [done|];
      apply Z.eqb_neq in Eb; destruct H as [H|H]; [done|];
      by apply (next (Build_state _ (Build_uart _ _ _ _ _)
                        _ _ _ _ _ _ _ _ _ _ _ _ _ _ _ _ _)) ].

Lemma imp_payload_humid_silent st :
  rx_byte (imp_rx (line st)) 0 = 0xFF -> silent st (imp_payload_humid st).
Proof. abort_block imp_payload_humid irx I. Qed.

Lemma imp_payload_temp_silent st :
  rx_byte (imp_rx (line st)) 0 = 0xFF \/ rx_byte (imp_rx (line st)) 1 = 0xFF ->
  silent st (imp_payload_temp st).
Proof. abort_block imp_payload_temp irx imp_payload_humid_silent. Qed.

Lemma imp_payload_flags_silent st :
  rx_byte (imp_rx (line st)) 0 = 0xFF \/ rx_byte (imp_rx (line st)) 1 = 0xFF \/
  rx_byte (imp_rx (line st)) 2 = 0xFF ->
  silent st (imp_payload_flags st).
Proof. abort_block imp_payload_flags irx imp_payload_temp_silent. Qed.

Lemma imp_header_1_silent st :
  rx_byte (imp_rx (line st)) 0 <> 0x65 \/ rx_byte (imp_rx (line st)) 1 = 0xFF \/
  rx_byte (imp_rx (line st)) 2 = 0xFF \/ rx_byte (imp_rx (line st)) 3 = 0xFF ->
  silent st (imp_header_1 st).
Proof.
  cbn [rx_byte]. intros H. unfold silent. open_state st.
  destruct (timed_read irx) as [b r] eqn:E. cbn in H.
  stage imp_header_1. rewrite E. cbn.
  destruct (b =? 101) eqn:Eb; cbn; [|done].
  apply Z.eqb_eq in Eb. destruct H as [H|H]; [done|].
  by apply (imp_payload_flags_silent
              (Build_state _ (Build_uart _ _ _ _ _) _ _ _ _ _ _ _ _ _ _ _ _ _ _ _ _ _)).
Qed.

Lemma imp_abort_silent st :
  imp_aborts (imp_rx (line st)) -> silent st (imp_exchange st).
Proof.
  unfold imp_aborts. cbn [rx_byte]. intros H. unfold silent. open_state st.
  destruct (timed_read irx) as [b r] eqn:E. cbn in H.
  stage imp_exchange. rewrite E. cbn.
  destruct (b =? 169) eqn:Eb; cbn; [|done].
  apply Z.eqb_eq in Eb. destruct H as [H|H]; [done|].
  by apply (imp_header_1_silent
              (Build_state _ (Build_uart _ _ _ _ _) _ _ _ _ _ _ _ _ _ _ _ _ _ _ _ _ _)).
Qed.

Lemma xbee_payload_humid_silent st :
  rx_byte (xbee_rx (line st)) 0 = 0xFF -> silent st (xbee_payload_humid st).
Proof. abort_block xbee_payload_humid xrx I. Qed.

Lemma xbee_payload_temp_silent st :
  rx_byte (xbee_rx (line st)) 0 = 0xFF \/ rx_byte (xbee_rx (line st)) 1 = 0xFF ->
  silent st (xbee_payload_temp st).
Proof. abort_block xbee_payload_temp xrx xbee_payload_humid_silent. Qed.

Lemma xbee_abort_silent st :
  xbee_aborts (xbee_rx (line st)) -> silent st (xbee_exchange st).
Proof.
  unfold xbee_aborts. cbn [rx_byte]. intros H. unfold silent. open_state st.
  destruct (timed_read xrx) as [b r] eqn:E. cbn in H.
  stage xbee_exchange. rewrite E. cbn.
  destruct (b =? 227) eqn:Eb; cbn; [|done].
  apply Z.eqb_eq in Eb. destruct H as [H|H]; [done|].
  by apply (xbee_payload_temp_silent
              (Build_state _ (Build_uart _ _ _ _ _) _ _ _ _ _ _ _ _ _ _ _ _ _ _ _ _ _)).
Qed.

(** X9.  An exchange that aborts sends nothing: no byte reaches either
    peer, no transmit wait is spent and no fault is signalled. *)
Theorem aborted_exchange_sends_nothing (p : peer) (st : state) :
  aborts p st ->
  imp_tx (line (exchange p st)) = imp_tx (line st) /\
  xbee_tx (line (exchange p st)) = xbee_tx (line st) /\
  udre (line (exchange p st)) = udre (line st) /\
  faults (exchange p st) = faults st.
Proof.
  destruct p; [apply imp_abort_silent | apply xbee_abort_silent].
Qed.

Lemma aborted_exchange_sends_nothing_witness :
  (aborts Imp st_imp_two_bytes /\
   silent st_imp_two_bytes (imp_exchange st_imp_two_bytes)) /\
  (aborts Xbee st_xbee_sentinel /\
   silent st_xbee_sentinel (xbee_exchange st_xbee_sentinel)).
Proof.
  assert (Hi : aborts Imp st_imp_two_bytes) by (do 4 right; reflexivity).
  assert (Hx : aborts Xbee st_xbee_sentinel) by (do 2 right; reflexivity).
  split; (split; [assumption|]).
  - exact (aborted_exchange_sends_nothing Imp st_imp_two_bytes Hi).
  - exact (aborted_exchange_sends_nothing Xbee st_xbee_sentinel Hx).
Defined.

(** X10.  A completed exchange with the Xbee stores the two payload bytes
    with their top bit masked off as the sensed readings (each then in
    [0,127]), leaves the EEPROM alone, sends nothing to the Imp and sends
    the Xbee the frame 0xD4, the local flags byte and the two payload bytes
    as received. *)
Theorem xbee_exchange_stores_readings_and_acknowledges
    (st : state) (x0 x1 : Z) (xrest : list (option Z)) :
  xbee_rx (line st) = Some 0xE3 :: Some x0 :: Some x1 :: xrest ->
  payload_byte x0 -> payload_byte x1 ->
  let st' := xbee_exchange st in
  temp_sen st' = Z.land x0 0x7F /\ humid_sen st' = Z.land x1 0x7F /\
  0 <= temp_sen st' <= 127 /\ 0 <= humid_sen st' <= 127 /\
  eeprom st' = eeprom st /\
  imp_tx (line st') = imp_tx (line st) /\
  xbee_tx (line st')
    = xbee_tx (line st) ++ transmitted (udre (line st)) [0xD4; u8 (io_char st); x0; x1].
Proof.
  intros Hrx H0 H1 st'. subst st'.
  rewrite (xbee_exchange_complete st x0 x1 xrest Hrx H0 H1), xbee_ack_eq.
  apply payload_byte_le in H0, H1.
  assert (R0 : 0 <= Z.land x0 0x7F <= 127)
    by (split; apply Z.leb_le; by_bytes x0 H0).
  assert (R1 : 0 <= Z.land x1 0x7F <= 127)
    by (split; apply Z.leb_le; by_bytes x1 H1).
  open_state st. unfold constant. rewrite !(u8_small x0), !(u8_small x1) by lia.
  repeat split; try reflexivity; lia.
Qed.

Lemma xbee_exchange_stores_readings_and_acknowledges_witness :
  let st' := xbee_exchange st_sensor_frame in
  temp_sen st' = Z.land 0x9A 0x7F /\ humid_sen st' = Z.land 0x30 0x7F /\
  0 <= temp_sen st' <= 127 /\ 0 <= humid_sen st' <= 127 /\
  eeprom st' = eeprom st_sensor_frame /\
  imp_tx (line st') = imp_tx (line st_sensor_frame) /\
  xbee_tx (line st')
    = xbee_tx (line st_sensor_frame)
      ++ transmitted (udre (line st_sensor_frame))
           [0xD4; u8 (io_char st_sensor_frame); 0x9A; 0x30].
Proof.
  refine (xbee_exchange_stores_readings_and_acknowledges
            st_sensor_frame 0x9A 0x30 [] _ _ _);
    first [reflexivity | split; [lia | discriminate]].
Defined.

Lemma imp_status_reply_eq st :
  imp_status_reply st =
  let st1 := packet_config st in
  st1 <| line := (line st1)
          <| udre := snd (timed_wait (snd (timed_wait (snd (timed_wait (udre (line st1))))))) |>
          <| imp_tx := imp_tx (line st1)
               ++ transmitted (udre (line st1))
                    [eeprom_read_byte (eeprom st1) PACKET0;
                     eeprom_read_byte (eeprom st1) PACKET1;
                     eeprom_read_byte (eeprom st1) PACKET2] |> |>.
Proof.
  unfold imp_status_reply. cbv zeta.
  generalize (packet_config st) as s. intros s. open_state s.
  do 3 (rewrite usart_out_imp_eq; cbn; unfold constant).
  rewrite !transmitted_cons2, <- !app_assoc.
  by rewrite !(u8_small (eeprom_read_byte _ _)) by apply eeprom_read_range.
Qed.

Lemma line_packet_config st : line (packet_config st) = line st.
Proof. open_state st. unfold packet_config. cbn. by destruct (_ || _). Qed.

Lemma packet_config_wire_bytes st s e :
  valid_settings s -> eeprom st = store_settings s e ->
  eeprom_read_byte (eeprom (packet_config st)) PACKET0 = wire_flags s /\
  eeprom_read_byte (eeprom (packet_config st)) PACKET1 = wire_temperature s /\
  eeprom_read_byte (eeprom (packet_config st)) PACKET2 = wire_humidity s.
Proof.
  intros Hv He.
  pose proof (encode_wire (st <| eeprom := e |>) s Hv) as H.
  unfold encode in H.
  replace ((st <| eeprom := e |>)
             <| eeprom := store_settings s (eeprom (st <| eeprom := e |>)) |>)
    with st in H by (open_state st; by subst).
  unfold packet_of, wire_packet in H.
  repeat split; congruence.
Qed.

(** X11.  A status request is answered from the stored settings: for valid
    stored settings the Imp is sent their wire packet (flags, target,
    humidity byte), whatever payload bytes came with the request, and the
    Xbee is sent nothing. *)
Theorem status_request_replies_with_stored_settings
    (st : state) (s : Settings) (e : gmap Z Z) (f t h : Z) (rx : list (option Z)) :
  valid_settings s -> eeprom st = store_settings s e ->
  imp_rx (line st) = Some 0xA9 :: Some 0x65 :: Some f :: Some t :: Some h :: rx ->
  payload_byte f -> payload_byte t -> payload_byte h ->
  Z.land t 0x80 <> 0 ->
  imp_tx (line (imp_exchange st))
    = imp_tx (line st)
      ++ transmitted (udre (line st))
           [wire_flags s; wire_temperature s; wire_humidity s] /\
  xbee_tx (line (imp_exchange st)) = xbee_tx (line st).
Proof.
  intros Hv He Hrx Hf Ht Hh Htop.
  rewrite (imp_exchange_complete _ _ _ _ _ Hrx Hf Ht Hh).
  unfold imp_dispatch.
  replace (temp_char _) with t by (by open_state st).
  apply Z.eqb_neq in Htop. unfold nz. rewrite Htop. cbn [negb].
  rewrite imp_status_reply_eq. cbv zeta.
  match goal with
  | |- context [packet_config ?x] => remember x as st1 eqn:Est1
  end.
  assert (He1 : eeprom st1 = store_settings s e)
    by (subst st1; open_state st; by subst).
  destruct (packet_config_wire_bytes st1 s e Hv He1) as (P0 & P1 & P2).
  rewrite P0, P1, P2. clear P0 P1 P2.
  pose proof (line_packet_config st1) as Hl.
  revert Hl. generalize (packet_config st1) as s1. intros s1 Hl.
  open_state s1. subst. open_state st. subst. by injection Hl as -> -> -> -> ->.
Qed.

Lemma status_request_replies_with_stored_settings_witness :
  imp_tx (line (imp_exchange st_heat_status_request))
    = imp_tx (line st_heat_status_request)
      ++ transmitted (udre (line st_heat_status_request)) [0x28; 68; 45] /\
  xbee_tx (line (imp_exchange st_heat_status_request))
    = xbee_tx (line st_heat_status_request).
Proof.
  refine (status_request_replies_with_stored_settings
            st_heat_status_request settings_heat ∅ 0x00 0x80 0x00 [] _ _ _ _ _ _ _);
    first [reflexivity | split; [lia | discriminate] | discriminate
          | unfold valid_settings; cbn; lia].
Defined.

(** With decimal temperature digits stored, no block of the exchange with
    the Imp calls [data_corruption]. *)
Lemma faults_imp_dispatch st :
  tempr_digits_ok st -> faults (imp_dispatch st) = faults st.
Proof.
  intros [Hh Hl]. unfold imp_dispatch. destruct (nz _).
  - rewrite imp_status_reply_eq. cbv zeta.
    transitivity (faults (packet_config st)).
    + generalize (packet_config st) as s. intros s. by open_state s.
    + rewrite packet_config_faults. cbv zeta.
      apply Z.ltb_ge in Hh, Hl. by rewrite Hh, Hl.
  - rewrite imp_set_command_eq. by open_state st.
Qed.

Ltac faults_block f next :=
  intros H; unfold f; cbv zeta; rewrite read_imp_eq;
  match goal with
  | |- faults (if ?c then _ else _) = _ => destruct c
  end;
  [ rewrite next; unfold tempr_digits_ok in *
  | ];
  match goal with st : state |- _ => by open_state st end.

Lemma faults_imp_payload_humid st :
  tempr_digits_ok st -> faults (imp_payload_humid st) = faults st.
Proof. faults_block imp_payload_humid faults_imp_dispatch. Qed.

Lemma faults_imp_payload_temp st :
  tempr_digits_ok st -> faults (imp_payload_temp st) = faults st.
Proof. faults_block imp_payload_temp faults_imp_payload_humid. Qed.

Lemma faults_imp_payload_flags st :
  tempr_digits_ok st -> faults (imp_payload_flags st) = faults st.
Proof. faults_block imp_payload_flags faults_imp_payload_temp. Qed.

Lemma faults_imp_header_1 st :
  tempr_digits_ok st -> faults (imp_header_1 st) = faults st.
Proof. faults_block imp_header_1 faults_imp_payload_flags. Qed.

Lemma faults_imp_exchange st :
  tempr_digits_ok st -> faults (imp_exchange st) = faults st.
Proof. faults_block imp_exchange faults_imp_header_1. Qed.

(** The exchange with the Xbee has no call of [packet_config]. *)
Lemma faults_xbee_exchange st : faults (xbee_exchange st) = faults st.
Proof.
  unfold xbee_exchange, xbee_payload_temp, xbee_payload_humid. cbv zeta.
  rewrite !read_xbee_eq.
  repeat match goal with
         | |- faults (if ?c then _ else _) = _ => destruct c
         end;
    rewrite ?xbee_ack_eq; by open_state st.
Qed.

(** X12.  While the stored temperature digits are decimal, neither exchange,
    completed or aborted, calls [data_corruption] or touches the panel
    selection, the edit phase, the changed flag, the blink clock or main's
    local copy of the panel's slots; in particular a set command from the
    Imp does not refresh the local copy. *)
Theorem exchanges_never_touch_ui (st : state) :
  tempr_digits_ok st ->
  same_ui st (xbee_exchange (imp_exchange st)) /\
  faults (xbee_exchange (imp_exchange st)) = faults st.
Proof.
  intros H. split.
  - eapply same_ui_trans; [apply same_ui_imp_exchange | apply same_ui_xbee_exchange].
  - by rewrite faults_xbee_exchange, faults_imp_exchange.
Qed.

Lemma exchanges_never_touch_ui_witness :
  same_ui st_set_command (xbee_exchange (imp_exchange st_set_command)) /\
  faults (xbee_exchange (imp_exchange st_set_command)) = faults st_set_command.
Proof.
  refine (exchanges_never_touch_ui st_set_command _).
  by vm_compute.
Defined.

(** * Further properties of the buttons and the panels *)

(** X13.  The mode-select button works in the Idle phase only: a pressed
    sample then moves the panel selection one step round the cycle
    0, 1, 2 and leaves the phase Idle (button 1 is not looked at in that
    call); in any editing phase the panel selection stays as it is. *)
Theorem mode_select_cycles_only_when_idle (b : buttons) (st : state) :
  0 <= current st <= 2 -> btn_0 b = true ->
  if editing st =? 0
  then current (btn_db_mod b st) = (current st + 1) mod 3 /\
       editing (btn_db_mod b st) = 0
  else current (btn_db_mod b st) = current st.
Proof.
  intros Hc Hb. open_state st. unfold btn_db_mod. cbn. rewrite Hb.
  destruct (Z.eqb_spec edt 0) as [-> |He]; cbn.
  - assert (Hcur : cur = 0 \/ cur = 1 \/ cur = 2) by lia.
    by destruct Hcur as [-> |[-> | ->]].
  - by repeat (case_match; cbn).
Qed.

Lemma mode_select_cycles_only_when_idle_witness :
  current (btn_db_mod press_0 ((booted [] []) <| current := 2 |>)) = (2 + 1) mod 3 /\
  editing (btn_db_mod press_0 ((booted [] []) <| current := 2 |>)) = 0.
Proof.
  refine (mode_select_cycles_only_when_idle
            press_0 ((booted [] []) <| current := 2 |>) _ _);
    [by vm_compute | reflexivity].
Defined.

(** X14.  When the mode-select button does not apply (it is not pressed, or
    the phase is not Idle), a pressed sample of button 1 advances the phase:
    round the cycle 0, 1, 2 on the temperature and humidity panels, between
    0 and 1 on the light panel; the panel selection stays as it is. *)
Theorem phase_advance_cycles (b : buttons) (st : state) :
  0 <= editing st <= 2 -> btn_1 b = true ->
  btn_0 b = false \/ editing st <> 0 ->
  current (btn_db_mod b st) = current st /\
  editing (btn_db_mod b st) =
    (if (current st =? 0) || (current st =? 1)
     then (editing st + 1) mod 3
     else if editing st =? 0 then 1 else 0).
Proof.
  intros He Hb H0. open_state st. unfold btn_db_mod, nz. cbn. rewrite Hb.
  assert (Hed : edt = 0 \/ edt = 1 \/ edt = 2) by lia.
  assert (Hfirst : (edt =? 0) && btn_0 b = false).
  { destruct H0 as [-> |H0]; [apply andb_false_r|].
    apply Z.eqb_neq in H0. by rewrite H0. }
  rewrite Hfirst.
  destruct (Z.eqb_spec cur 0) as [-> |?]; cbn;
    [|destruct (Z.eqb_spec cur 1) as [-> |?]; cbn];
    by destruct Hed as [-> |[-> | ->]].
Qed.

Lemma phase_advance_cycles_witness :
  current (btn_db_mod press_1 st_edit_value) = current st_edit_value /\
  editing (btn_db_mod press_1 st_edit_value) =
    (if (current st_edit_value =? 0) || (current st_edit_value =? 1)
     then (editing st_edit_value + 1) mod 3
     else if editing st_edit_value =? 0 then 1 else 0).
Proof.
  refine (phase_advance_cycles press_1 st_edit_value _ _ _);
    [by vm_compute | reflexivity | left; reflexivity].
Defined.





(** X17.  In the editing phase of the light panel a press of either value
    button moves the light setting in the first data byte one step round the
    cycle 0 (Auto), 1 (Off), 2 (On); the unused value 3 goes to 0.  The low
    six bits of the first byte are cleared and the second data byte is not
    touched. *)
Theorem light_cycles_on_either_button
    (b : buttons) (d0 d1 : Z) (st : state) :
  editing st <> 0 -> btn_2 b = true \/ btn_3 b = true ->
  0 <= d0 <= 255 ->
  fst (fst (light_config b d0 d1 st)) =
    Z.shiftl (if Z.shiftr d0 6 =? 3 then 0 else (Z.shiftr d0 6 + 1) mod 3) 6 /\
  snd (fst (light_config b d0 d1 st)) = d1.
Proof.
  intros He Hb H0.
  assert (E0 : u8 (Z.lor 0 (Z.shiftl
                 (let light := Z.shiftr (Z.land d0 0xC0) 6 in
                  if light =? 0 then 1 else if light =? 1 then 2 else 0) 6))
               = Z.shiftl (if Z.shiftr d0 6 =? 3 then 0
                           else (Z.shiftr d0 6 + 1) mod 3) 6)
    by (by_bytes d0 H0).
  cbv zeta in E0.
  open_state st. unfold light_config, btn_db_val, nz. cbn.
  apply Z.eqb_neq in He. rewrite He. cbn.
  destruct Hb as [Hb|Hb]; rewrite Hb; [|destruct (btn_2 b)]; cbn;
    unfold constant; by rewrite E0.
Qed.

Lemma light_cycles_on_either_button_witness :
  fst (fst (light_config press_2 0x80 0 st_edit_mode)) =
    Z.shiftl (if Z.shiftr 0x80 6 =? 3 then 0 else (Z.shiftr 0x80 6 + 1) mod 3) 6 /\
  snd (fst (light_config press_2 0x80 0 st_edit_mode)) = 0.
Proof.
  refine (light_cycles_on_either_button press_2 0x80 0 st_edit_mode _ _ _);
    [discriminate | left; reflexivity | lia].
Defined.

(** * Further properties of the main loop *)

Lemma blink_inv_clk st : blink_inv st -> blink_inv (clk st).
Proof.
  unfold blink_inv, TCLCL. intros [Hc Hp]. open_state st. unfold clk, TCLCL. cbn.
  assert (H : cnt = 1 \/ cnt = 2 \/ cnt = 3 \/ cnt = 4) by lia.
  destruct H as [-> |[-> |[-> | ->]]]; cbn in *; subst; by vm_compute.
Qed.

(** X19.  The blink clock keeps its invariant (counter in [1, TCLCL], level
    high exactly in the second half of the period), and TCLCL calls bring
    the counter and the level back to where they were. *)
Theorem blink_clock_has_period_tclcl (st : state) :
  blink_inv st ->
  blink_inv (clk st) /\
  counter (clk (clk (clk (clk st)))) = counter st /\
  pos_level (clk (clk (clk (clk st)))) = pos_level st.
Proof.
  intros H. split; [by apply blink_inv_clk|].
  destruct H as [Hc Hp]. unfold TCLCL in *. open_state st.
  assert (H : cnt = 1 \/ cnt = 2 \/ cnt = 3 \/ cnt = 4) by lia.
  destruct H as [-> |[-> |[-> | ->]]]; vm_compute in Hp; subst pos; by vm_compute.
Qed.

Lemma blink_clock_has_period_tclcl_witness :
  blink_inv (clk (booted [] [])) /\
  counter (clk (clk (clk (clk (booted [] []))))) = counter (booted [] []) /\
  pos_level (clk (clk (clk (clk (booted [] []))))) = pos_level (booted [] []).
Proof.
  refine (blink_clock_has_period_tclcl (booted [] []) _).
  by vm_compute.
Defined.

(** X20.  The commit writes nothing when the local copy holds what the two
    slots hold: right after the head of the outer loop it leaves the EEPROM
    as it is, and a second commit in a row never writes. *)
Theorem commit_writes_only_differences (st : state) :
  eeprom (commit (outer_head st)) = eeprom st /\
  eeprom (commit (commit st)) = eeprom (commit st).
Proof.
  split.
  - open_state st. unfold outer_head, commit. cbn. unfold constant.
    rewrite (eeprom_update_byte_same ee) by (by rewrite u8_small by apply eeprom_read_range).
    by rewrite (eeprom_update_byte_same ee) by (by rewrite u8_small by apply eeprom_read_range).
  - destruct (read_commit st) as [R0 R1].
    open_state st. unfold commit in *. cbn in *. unfold constant in *.
    rewrite (eeprom_update_byte_same _ adr) by exact R0.
    by rewrite (eeprom_update_byte_same _ (adr + 1)) by exact R1.
Qed.

Lemma ui_inv_main_entry e l : ui_inv (main_entry e l).
Proof. unfold ui_inv, main_entry, outer_head. cbn. repeat split; lia. Qed.

(** X22.  A pass in which the mode-select button is pressed in the Idle
    phase does no serial exchange and no packet refresh: the serial line and
    the control variables are as before, the panel selection has moved one
    step, and main's local copy holds the two slots of the new panel. *)
Theorem panel_switch_pass_reloads_and_skips_exchanges (b : buttons) (st : state) :
  ui_inv st -> editing st = 0 -> btn_0 b = true ->
  let st' := loop_body b st in
  current st' = (current st + 1) mod 3 /\
  line st' = line st /\ ctl st' = ctl st /\ faults st' = faults st /\
  addr st' = panel_slot (current st') /\
  local_data_0 st' = eeprom_read_byte (eeprom st') (addr st') /\
  local_data_1 st' = eeprom_read_byte (eeprom st') (addr st' + 1).
Proof.
  intros (Hc & He & Hl & Hcl & Ha) Hed Hb st'. subst st'.
  unfold loop_body. cbv zeta.
  set (s1 := btn_db_mod b st).
  assert (H1 : current s1 = (current st + 1) mod 3 /\ editing s1 = 0 /\
               current_loop s1 = current st /\
               line s1 = line st /\ ctl s1 = ctl st /\ faults s1 = faults st).
  { subst s1. open_state st. unfold btn_db_mod. cbn. subst. rewrite Hb. cbn.
    assert (Hcur : cur = 0 \/ cur = 1 \/ cur = 2) by lia.
    by destruct Hcur as [-> |[-> | ->]]; vm_compute. }
  clearbody s1. destruct H1 as (C1 & E1 & L1 & Ln1 & Ct1 & F1).
  set (s2 := if (editing s1 =? 0) && nz (changed s1) then commit s1 else s1).
  assert (H2 : current s2 = current s1 /\ current_loop s2 = current_loop s1 /\
               line s2 = line s1 /\ ctl s2 = ctl s1 /\ faults s2 = faults s1).
  { subst s2. destruct (_ && _); [|done]. by open_state s1. }
  clearbody s2. destruct H2 as (C2 & L2 & Ln2 & Ct2 & F2).
  assert (Hne : current_loop s2 <> current s2).
  { rewrite L2, C2, L1, C1.
    assert (Hcur : current st = 0 \/ current st = 1 \/ current st = 2) by lia.
    by destruct Hcur as [-> |[-> | ->]]. }
  rewrite (loop_rest_break b s2 Hne).
  rewrite <- C1, <- C2, <- Ln1, <- Ln2, <- Ct1, <- Ct2, <- F1, <- F2.
  open_state s2. unfold outer_head, panel_slot. cbn. unfold constant.
  done.
Qed.

Lemma panel_switch_pass_reloads_and_skips_exchanges_witness :
  let st := booted [Some 0xA9] [Some 0xE3] in
  let st' := loop_body press_0 st in
  current st' = (current st + 1) mod 3 /\
  line st' = line st /\ ctl st' = ctl st /\ faults st' = faults st /\
  addr st' = panel_slot (current st') /\
  local_data_0 st' = eeprom_read_byte (eeprom st') (addr st') /\
  local_data_1 st' = eeprom_read_byte (eeprom st') (addr st' + 1).
Proof.
  refine (panel_switch_pass_reloads_and_skips_exchanges
            press_0 (booted [Some 0xA9] [Some 0xE3]) _ _ _);
    [apply ui_inv_main_entry | reflexivity | reflexivity].
Defined.

(** * Properties of the auxiliary controller *)

Lemma aux_run_cons c t ps st :
  Aux.run ((c, t) :: ps) st = Aux.run ps (Aux.loop_body c t st).
Proof. reflexivity. Qed.

Lemma aux_loop_body_keeps_temp c t st :
  Aux.temp (Aux.loop_body c t st) = Aux.temp st.
Proof.
  destruct st. unfold Aux.loop_body, Aux.store_flags, Aux.usart_out. cbn.
  by repeat (case_match; cbn).
Qed.

(** X23.  The auxiliary controller never stores a temperature: whatever
    byte pairs arrive, its temperature variable keeps its value (72 from
    start-up), and that value is what every status reply reports. *)
Theorem aux_temperature_never_changes (ps : list (Z * Z)) (st : Aux.state) :
  Aux.temp (Aux.run ps st) = Aux.temp st.
Proof.
  revert st. induction ps as [|[c t] ps IH]; intros st; [done|].
  by rewrite aux_run_cons, IH, aux_loop_body_keeps_temp.
Qed.

Lemma aux_loop_body_not_from_imp c t st :
  Z.land c 0x01 = 0 ->
  Aux.loop_body c t st = st <| Aux.pc0 := nz (Aux.lightsOn st) |>.
Proof.
  intros H.
  assert (N1 : nz (Z.land c 0x01) = false) by (unfold nz; by rewrite H).
  unfold Aux.loop_body. rewrite N1. destruct st. cbn. by case_match.
Qed.

(** X24.  Byte pairs whose first byte has bit 0 clear are ignored: a run of
    such pairs sends nothing and changes none of the seven variables. *)
Theorem aux_ignores_pairs_without_imp_bit (ps : list (Z * Z)) (st : Aux.state) :
  Forall (fun p => Z.land (fst p) 0x01 = 0) ps ->
  let st' := Aux.run ps st in
  Aux.sent st' = Aux.sent st /\
  (Aux.lightsOn st', Aux.lightsAuto st', Aux.coolerOn st', Aux.heaterOn st',
   Aux.fanOn st', Aux.acAutoModeOn st', Aux.temp st')
  = (Aux.lightsOn st, Aux.lightsAuto st, Aux.coolerOn st, Aux.heaterOn st,
     Aux.fanOn st, Aux.acAutoModeOn st, Aux.temp st).
Proof.
  intros H. cbv zeta. revert st.
  induction H as [|[c t] ps Hp _ IH]; intros st; [done|].
  rewrite aux_run_cons.
  cbn [fst] in Hp. rewrite (aux_loop_body_not_from_imp c t st Hp).
  destruct (IH (st <| Aux.pc0 := nz (Aux.lightsOn st) |>)) as [E1 E2].
  rewrite E1, E2. by destruct st.
Qed.

Lemma aux_ignores_pairs_without_imp_bit_witness :
  let st' := Aux.run [(0x40, 0x80); (0x7E, 0x10)] Aux.initial in
  Aux.sent st' = Aux.sent Aux.initial /\
  (Aux.lightsOn st', Aux.lightsAuto st', Aux.coolerOn st', Aux.heaterOn st',
   Aux.fanOn st', Aux.acAutoModeOn st', Aux.temp st')
  = (Aux.lightsOn Aux.initial, Aux.lightsAuto Aux.initial, Aux.coolerOn Aux.initial,
     Aux.heaterOn Aux.initial, Aux.fanOn Aux.initial, Aux.acAutoModeOn Aux.initial,
     Aux.temp Aux.initial).
Proof.
  refine (aux_ignores_pairs_without_imp_bit
            [(0x40, 0x80); (0x7E, 0x10)] Aux.initial _).
  repeat constructor.
Defined.

Lemma aux_loop_body_command f t st :
  Z.land f 0x01 <> 0 -> Z.land t 0x80 = 0 ->
  Aux.loop_body f t st =
  (Aux.store_flags f st) <| Aux.pc0 := nz (Z.b2z (nz (Z.land f 0x40))) |>.
Proof.
  intros Hf Ht. apply Z.eqb_neq in Hf.
  assert (N1 : nz (Z.land f 0x01) = true) by (unfold nz; by rewrite Hf).
  assert (N2 : nz (Z.land t 0x80) = false) by (unfold nz; by rewrite Ht).
  unfold Aux.loop_body. rewrite N1, N2. destruct st.
  unfold Aux.store_flags. cbn. unfold constant. by case_match.
Qed.

Lemma aux_loop_body_status f t st :
  Z.land f 0x01 <> 0 -> Z.land t 0x80 <> 0 ->
  Aux.loop_body f t st =
  (Aux.usart_out (Aux.temp st) (Aux.usart_out (Aux.status_flags st) st))
    <| Aux.pc0 := nz (Aux.lightsOn st) |>.
Proof.
  intros Hf Ht. apply Z.eqb_neq in Hf, Ht.
  assert (N1 : nz (Z.land f 0x01) = true) by (unfold nz; by rewrite Hf).
  assert (N2 : nz (Z.land t 0x80) = true) by (unfold nz; by rewrite Ht).
  unfold Aux.loop_body. rewrite N1, N2. destruct st.
  unfold Aux.usart_out. cbn. unfold constant. by case_match.
Qed.

Lemma aux_status_flags_of_command f st p :
  0 <= f <= 255 -> Z.land f 0x01 <> 0 ->
  u8 (Aux.status_flags ((Aux.store_flags f st) <| Aux.pc0 := p |>)) = Z.land f 0x7F /\
  nz (Z.b2z (nz (Z.land f 0x40))) = Z.testbit f 6.
Proof.
  intros Hf H1.
  assert (E : (Z.land f 0x01 =? 0) ||
              ((u8 (Aux.status_flags (Aux.store_flags f Aux.initial)) =? Z.land f 0x7F)
               && Bool.eqb (nz (Z.b2z (nz (Z.land f 0x40)))) (Z.testbit f 6)) = true)
    by (by_bytes f Hf).
  apply Z.eqb_neq in H1. rewrite H1 in E. cbn [orb] in E.
  apply andb_true_iff in E as [E1 E2]. apply Z.eqb_eq in E1. apply eqb_prop in E2.
  split; [|exact E2]. destruct st. exact E1.
Qed.

(** X25.  A command followed by a status request: the reply is the flags of
    the command (bits 1 to 6, with bit 0 set) and the temperature variable,
    not the temperature byte of the command; the light output follows bit 6
    of the command. *)
Theorem aux_status_reply_echoes_command_flags
    (f t f' t' : Z) (st : Aux.state) :
  0 <= f <= 255 -> 0 <= Aux.temp st <= 255 ->
  Z.land f 0x01 <> 0 -> Z.land t 0x80 = 0 ->
  Z.land f' 0x01 <> 0 -> Z.land t' 0x80 <> 0 ->
  let st1 := Aux.loop_body f t st in
  let st2 := Aux.loop_body f' t' st1 in
  Aux.sent st2 = Aux.sent st ++ [Z.land f 0x7F; Aux.temp st] /\
  Aux.pc0 st1 = Z.testbit f 6 /\ Aux.pc0 st2 = Z.testbit f 6.
Proof.
  intros Hf Ht Hf1 Ht1 Hf2 Ht2. cbv zeta.
  rewrite (aux_loop_body_command f t st Hf1 Ht1).
  rewrite (aux_loop_body_status f' t' _ Hf2 Ht2).
  destruct (aux_status_flags_of_command f st (nz (Z.b2z (nz (Z.land f 0x40)))) Hf Hf1)
    as [E1 E2].
  revert E1. generalize (Aux.status_flags
    ((Aux.store_flags f st) <| Aux.pc0 := nz (Z.b2z (nz (Z.land f 0x40))) |>)) as g.
  intros g E1. destruct st. unfold Aux.usart_out, Aux.store_flags. cbn in *.
  unfold constant. rewrite <- app_assoc, E1, E2, (u8_small temp) by lia. done.
Qed.

Lemma aux_status_reply_echoes_command_flags_witness :
  let st1 := Aux.loop_body 0x09 0x50 Aux.initial in
  let st2 := Aux.loop_body 0x01 0x80 st1 in
  Aux.sent st2 = Aux.sent Aux.initial ++ [Z.land 0x09 0x7F; Aux.temp Aux.initial] /\
  Aux.pc0 st1 = Z.testbit 0x09 6 /\ Aux.pc0 st2 = Z.testbit 0x09 6.
Proof.
  refine (aux_status_reply_echoes_command_flags 0x09 0x50 0x01 0x80 Aux.initial
            _ _ _ _ _ _);
    first [reflexivity | discriminate | by vm_compute].
Defined.
